(** * The marketing dashboard client: upload, generation stream, settings

  A shallow embedding of the client-side handlers of the dashboard
  ([frontend/src/App.jsx], [frontend/src/components/Settings.jsx],
  [frontend/src/components/CsvUpload.jsx]) together with the properties
  the design document states about them.

  JavaScript values are an inductive type, React state is a record that
  the handlers thread through a small state-and-exception monad, the
  browser's [localStorage] is a finite map, and what the network returns
  is an argument of each handler. *)

From Stdlib Require Import ZArith Ascii String List Bool Lia Sorted.
From stdpp Require Import base strings gmap list pretty.

Set Warnings "-register-all".

Local Open Scope string_scope.
Local Open Scope list_scope.

(** ** JavaScript strings *)

Module JsString.

(** [s.slice(n)] for [0 <= n]: the string without its first [n]
    characters. *)
Fixpoint slice (n : nat) (s : string) : string :=
  match n, s with
  | O, _ => s
  | S _, EmptyString => EmptyString
  | S k, String _ r => slice k r
  end.

(** [s.startsWith(p)]. *)
Definition startsWith (p s : string) : bool := String.prefix p s.

(** [s.endsWith(suf)]: [suf] is the whole of [s] or ends its tail. *)
Fixpoint endsWith (suf s : string) : bool :=
  if String.eqb suf s then true
  else match s with
       | EmptyString => false
       | String _ r => endsWith suf r
       end.

Definition newline : ascii := Ascii.ascii_of_nat 10.

(** [s.split(sep)] for a one-character separator.  The result is never
    empty: the empty string splits into one empty piece. *)
Fixpoint split (sep : ascii) (s : string) : list string :=
  match s with
  | EmptyString => [EmptyString]
  | String c r =>
      if Ascii.eqb c sep then EmptyString :: split sep r
      else match split sep r with
           | [] => [String c EmptyString]
           | p :: ps => String c p :: ps
           end
  end.

(** Concatenation of a list of strings, as the text a sequence of decoded
    chunks spells. *)
Definition concat (l : list string) : string :=
  fold_right String.append EmptyString l.

End JsString.

(** ** JavaScript values *)

(** The values that reach the handlers: what [JSON.parse] builds, and
  [undefined] for a property that is absent.  Numbers are the integers
  (the character counts and HTTP status codes of this program); an object
  is the list of its own properties, each key once. *)
Inductive jsval : Type :=
| JUndefined
| JNull
| JBool (b : bool)
| JNum (n : Z)
| JStr (s : string)
| JArr (items : list jsval)
| JObj (props : list (string * jsval)).

(** An exception value: every throw of the handlers carries an [Error]
  (or [SyntaxError], [TypeError]) object, of which only [message] is
  read. *)
Record Error : Type := new_Error_msg { message : string }.

Inductive completion (A : Type) : Type :=
| Normal (a : A)
| Throw (e : Error).
Arguments Normal {A} a.
Arguments Throw {A} e.

Module Js.

(** ToBoolean. *)
Definition truthy (v : jsval) : bool :=
  match v with
  | JUndefined | JNull => false
  | JBool b => b
  | JNum n => negb (Z.eqb n 0)
  | JStr s => negb (String.eqb s "")
  | JArr _ | JObj _ => true
  end.

(** [a || b]. *)
Definition or (a b : jsval) : jsval := if truthy a then a else b.

(** Own-property lookup in an object's property list. *)
Fixpoint lookup (k : string) (props : list (string * jsval)) : option jsval :=
  match props with
  | [] => None
  | (k', v) :: r => if String.eqb k k' then Some v else lookup k r
  end.

(** [o[k] = v] on a property list: an existing key keeps its place and
    takes the new value, a new key goes last. *)
Fixpoint set (k : string) (v : jsval) (props : list (string * jsval))
  : list (string * jsval) :=
  match props with
  | [] => [(k, v)]
  | (k', v') :: r =>
      if String.eqb k k' then (k', v) :: r else (k', v') :: set k v r
  end.

(** The value of property [k] of an object: [undefined] when absent. *)
Definition prop (props : list (string * jsval)) (k : string) : jsval :=
  match lookup k props with
  | Some x => x
  | None => JUndefined
  end.

(** [v.k] for the keys the handlers read ([error], [status], [partial],
    [data], [detail]): a TypeError on [null] and [undefined], the
    property or [undefined] on an object, [undefined] on a primitive or
    an array. *)
Definition get (v : jsval) (k : string) : completion jsval :=
  match v with
  | JUndefined =>
      Throw (new_Error_msg
        ("Cannot read properties of undefined (reading '" +:+ k +:+ "')"))
  | JNull =>
      Throw (new_Error_msg
        ("Cannot read properties of null (reading '" +:+ k +:+ "')"))
  | JObj props => Normal (prop props k)
  | _ => Normal JUndefined
  end.

(** ToString, as applied by a template literal and by [new Error(v)]. *)
Fixpoint ToString (v : jsval) : string :=
  match v with
  | JUndefined => "undefined"
  | JNull => "null"
  | JBool true => "true"
  | JBool false => "false"
  | JNum n => pretty n
  | JStr s => s
  | JArr items =>
      (fix join (l : list jsval) : string :=
         match l with
         | [] => ""
         | x :: r =>
             let sx := match x with
                       | JUndefined | JNull => ""
                       | _ => ToString x
                       end in
             match r with
             | [] => sx
             | _ :: _ => sx +:+ "," +:+ join r
             end
         end) items
  | JObj _ => "[object Object]"
  end.

(** [new Error(v)] for a [v] that is not [undefined]. *)
Definition new_Error (v : jsval) : Error := new_Error_msg (ToString v).

(** [{...v}]: the own enumerable properties of [v].  A parsed JSON
    object spreads to its properties, an array and a string to their
    indexed elements; [null], [undefined], a boolean and a number spread
    to nothing. *)
Definition spread (v : jsval) : list (string * jsval) :=
  match v with
  | JObj props => props
  | JArr items => imap (fun i x => (pretty i, x)) items
  | JStr s =>
      imap (fun i c => (pretty i, JStr (String c EmptyString)))
           (list_ascii_of_string s)
  | _ => []
  end.

(** [v === lit] for a string literal [lit]. *)
Definition strict_eq_str (v : jsval) (lit : string) : bool :=
  match v with
  | JStr s => String.eqb s lit
  | _ => false
  end.

End Js.

(** ** The network and the browser *)

(** A [File] picked by the user; the handlers read its [name] only. *)
Record File : Type := { name : string; bytes : string }.

Inductive request_body : Type :=
| FormDataBody (field : string) (file : File)
| JsonBody (v : jsval).

(** The argument of [fetch].  [JsonBody v] stands for the body
    [JSON.stringify(v)]. *)
Record request : Type := {
  url : string;
  method : string;
  headers : list (string * string);
  body : request_body
}.

(** What the handlers read of a [Response]: [ok], [status] and the body,
    as the decoded chunks its reader delivers before it reports [done].
    The record stands for a response that has a body and whose reads all
    succeed; a response without a body (status 204 or 205) and a read
    that fails midway are outside it. *)
Record response : Type := {
  ok : bool;
  status : Z;
  chunks : list string
}.

(** [fetch] either rejects or resolves to a response. *)
Inductive fetch_result : Type :=
| Rejected (e : Error)
| Responded (r : response).

(** The outcome of [JSON.parse]: a value, or a [SyntaxError]. *)
Definition parser : Type := string -> completion jsval.

(** ** App.jsx *)

Module App.

Record Settings : Type := { apiKey : string; model : string }.

(** The [useState] cells of [App]. *)
Record State : Type := {
  summary : jsval;
  content : jsval;
  loading : bool;
  loadingStatus : string;
  error : option string;
  settings : Settings
}.

Definition initial : State :=
  {| summary := JNull; content := JNull; loading := false;
     loadingStatus := ""; error := None;
     settings := {| apiKey := ""; model := "gpt-5-mini-2025-08-07" |} |}.

(** What a handler acts on: the React state and the requests sent so far
    (oldest first). *)
Record World : Type := { react : State; sent : list request }.

(** Handlers run in a state-and-exception monad over [World]. *)
Definition M (A : Type) : Type := World -> World * completion A.

Definition ret {A} (a : A) : M A := fun w => (w, Normal a).

Definition bind {A B} (m : M A) (k : A -> M B) : M B :=
  fun w => match m w with
           | (w', Normal a) => k a w'
           | (w', Throw e) => (w', Throw e)
           end.

Definition throw {A} (e : Error) : M A := fun w => (w, Throw e).

(** [try { m } catch (e) { h e }]. *)
Definition try_catch {A} (m : M A) (h : Error -> M A) : M A :=
  fun w => match m w with
           | (w', Normal a) => (w', Normal a)
           | (w', Throw e) => h e w'
           end.

(** [try { m } finally { f }]: [f] runs either way, and the completion of
    [m] stands unless [f] throws. *)
Definition try_finally {A} (m : M A) (f : M unit) : M A :=
  fun w => match m w with
           | (w', c) =>
               match f w' with
               | (w'', Normal _) => (w'', c)
               | (w'', Throw e) => (w'', Throw e)
               end
           end.

(** A pure computation that may throw. *)
Definition lift {A} (c : completion A) : M A := fun w => (w, c).

Definition modify (f : State -> State) : M unit :=
  fun w => ({| react := f (react w); sent := sent w |}, Normal tt).

(** [m] sends no request. *)
Definition quiet {A} (m : M A) : Prop :=
  forall w : World, sent (fst (m w)) = sent w.

Declare Scope app_scope.
Delimit Scope app_scope with app.
Notation "x <- m ;; k" := (bind m (fun x => k))
  (at level 100, m at next level, k at level 200, right associativity)
  : app_scope.
Notation "m ;; k" := (bind m (fun _ => k))
  (at level 100, k at level 200, right associativity) : app_scope.
Local Open Scope app_scope.

(** The state setters. *)
Definition setSummary (v : jsval) : M unit :=
  modify (fun s => {| summary := v; content := content s; loading := loading s;
                      loadingStatus := loadingStatus s; error := error s;
                      settings := settings s |}).
Definition setContent (v : jsval) : M unit :=
  modify (fun s => {| summary := summary s; content := v; loading := loading s;
                      loadingStatus := loadingStatus s; error := error s;
                      settings := settings s |}).
Definition setLoading (b : bool) : M unit :=
  modify (fun s => {| summary := summary s; content := content s; loading := b;
                      loadingStatus := loadingStatus s; error := error s;
                      settings := settings s |}).
Definition setLoadingStatus (m : string) : M unit :=
  modify (fun s => {| summary := summary s; content := content s;
                      loading := loading s; loadingStatus := m;
                      error := error s; settings := settings s |}).
Definition setError (e : option string) : M unit :=
  modify (fun s => {| summary := summary s; content := content s;
                      loading := loading s; loadingStatus := loadingStatus s;
                      error := e; settings := settings s |}).
Definition setSettings (x : Settings) : M unit :=
  modify (fun s => {| summary := summary s; content := content s;
                      loading := loading s; loadingStatus := loadingStatus s;
                      error := error s; settings := x |}).

Definition handleSettingsChange (newSettings : Settings) : M unit :=
  setSettings newSettings.

Section Handlers.

(** The platform and the deployment: [JSON.parse], the server the browser
    talks to, and the configured base address. *)
Variable JSON_parse : parser.
Variable net : request -> fetch_result.
Variable API_BASE : string.

(** [await fetch(...)]: the request is sent, then the promise settles. *)
Definition fetch (r : request) : M response :=
  fun w =>
    let w' := {| react := react w; sent := sent w ++ [r] |} in
    match net r with
    | Rejected e => (w', Throw e)
    | Responded resp => (w', Normal resp)
    end.

(** [response.text()] and [response.json()]. *)
Definition response_text (r : response) : string := JsString.concat (chunks r).
Definition response_json (r : response) : M jsval :=
  lift (JSON_parse (response_text r)).

(** *** handleUpload *)

Definition upload_request (file : File) : request :=
  {| url := API_BASE +:+ "/upload-csv"; method := "POST"; headers := [];
     body := FormDataBody "file" file |}.

Definition handleUpload (file : File) : M unit :=
  setLoading true;;
  setLoadingStatus "Uploading CSV...";;
  setError None;;
  setContent JNull;;
  try_finally
    (try_catch
       (response <- fetch (upload_request file);;
        (if negb (ok response) then
           errorMsg <-
             try_catch
               (data <- response_json response;;
                detail <- lift (Js.get data "detail");;
                ret (Js.or detail (JStr "Failed to upload CSV")))
               (fun _ =>
                  ret (JStr ("Server error: " +:+
                             Js.ToString (JNum (status response)))));;
           throw (Js.new_Error errorMsg)
         else ret tt);;
        let text := response_text response in
        (if String.eqb text "" then
           throw (new_Error_msg "Empty response from server")
         else ret tt);;
        data <- lift (JSON_parse text);;
        setSummary data;;
        setLoadingStatus "")
       (fun err =>
          setError
            (Some (if String.eqb (message err) ""
                   then "An error occurred while uploading"
                   else message err));;
          setSummary JNull))
    (setLoading false).

(** *** handleGenerate *)

(** The object literal [{...summary, api_key: ..., model: ...}]. *)
Definition generate_payload (summary : jsval) (settings : Settings) : jsval :=
  JObj (Js.set "model" (JStr (model settings))
          (Js.set "api_key" (JStr (apiKey settings))
             (Js.spread summary))).

Definition generate_request (summary : jsval) (settings : Settings) : request :=
  {| url := API_BASE +:+ "/generate-content-stream"; method := "POST";
     headers := [("Content-Type", "application/json")];
     body := JsonBody (generate_payload summary settings) |}.

(** The chain of [if (data.status === ...)] of the stream loop.  Reading a
    property has no effect, so [data.status] is read once here. *)
Definition status_dispatch (data : jsval) : M unit :=
  status <- lift (Js.get data "status");;
  if Js.strict_eq_str status "connecting" then
    setLoadingStatus "Connecting to AI..."
  else if Js.strict_eq_str status "generating" then
    setLoadingStatus "Generating marketing content..."
  else if Js.strict_eq_str status "streaming" then
    partial <- lift (Js.get data "partial");;
    setLoadingStatus
      ("Generating content... (" +:+ Js.ToString partial +:+ " chars)")
  else if Js.strict_eq_str status "processing" then
    setLoadingStatus "Processing response..."
  else if Js.strict_eq_str status "complete" then
    d <- lift (Js.get data "data");;
    setContent d;;
    setLoadingStatus ""
  else ret tt.

(** The body of [for (const line of lines)]. *)
Definition process_line (line : string) : M unit :=
  try_catch
    (data <- lift (JSON_parse (JsString.slice 6 line));;
     err <- lift (Js.get data "error");;
     (if Js.truthy err then throw (Js.new_Error err) else ret tt);;
     status_dispatch data)
    (fun parseErr =>
       if negb (String.eqb (message parseErr) "Unexpected end of JSON input")
       then throw parseErr
       else ret tt).

Fixpoint for_lines (lines : list string) : M unit :=
  match lines with
  | [] => ret tt
  | line :: rest => process_line line;; for_lines rest
  end.

(** [chunk.split('\n').filter(line => line.startsWith('data: '))]. *)
Definition data_lines (chunk : string) : list string :=
  List.filter (JsString.startsWith "data: ")
              (JsString.split JsString.newline chunk).

(** The [while (true)] loop over [reader.read()]: one round per chunk,
    left when the reader reports [done]. *)
Fixpoint read_loop (chunks : list string) : M unit :=
  match chunks with
  | [] => ret tt
  | chunk :: rest => for_lines (data_lines chunk);; read_loop rest
  end.

(** The [catch] and [finally] clauses of [handleGenerate] around a [try]
    block [m]. *)
Definition generate_guarded (m : M unit) : M unit :=
  try_finally
    (try_catch m (fun err => setError (Some (message err))))
    (setLoading false;; setLoadingStatus "").

(** [handleGenerate], for a response as [response] describes it: the
    body is there, so [response.body.getReader()] succeeds, and every
    read succeeds until the reader reports [done]. *)
Definition handleGenerate : M unit :=
  fun w =>
    let summary := summary (react w) in
    let settings := settings (react w) in
    (if negb (Js.truthy summary) then ret tt
     else if String.eqb (apiKey settings) "" then
       setError
         (Some "Please configure your OpenAI API key in settings first.")
     else
       setLoading true;;
       setLoadingStatus "Connecting to AI...";;
       setError None;;
       generate_guarded
         (response <- fetch (generate_request summary settings);;
          (if negb (ok response) then
             data <- response_json response;;
             detail <- lift (Js.get data "detail");;
             throw (Js.new_Error
                      (Js.or detail (JStr "Failed to generate content")))
           else ret tt);;
          read_loop (chunks response))) w.

End Handlers.

(** Whether the loop goes on after a line: its payload is a value other
    than [null] whose [error] is falsy, or whose [error] reads as the
    message the inner [catch] lets pass, or the parse fails with that
    message. *)
Definition continues (JSON_parse : parser) (line : string) : bool :=
  match JSON_parse (JsString.slice 6 line) with
  | Normal JUndefined | Normal JNull => false
  | Normal (JObj props) =>
      let err := Js.prop props "error" in
      negb (Js.truthy err) ||
      String.eqb (Js.ToString err) "Unexpected end of JSON input"
  | Normal _ => true
  | Throw e => String.eqb (message e) "Unexpected end of JSON input"
  end.

(** The world of [handleGenerate] once its request is out: the loading
    flag is up, the status reads [Connecting to AI...], the error is
    cleared and the request is on record. *)
Definition started (API_BASE : string) (w : World) : World :=
  {| react :=
       {| summary := summary (react w); content := content (react w);
          loading := true; loadingStatus := "Connecting to AI...";
          error := None; settings := settings (react w) |};
     sent := sent w ++
             [generate_request API_BASE (summary (react w))
                (settings (react w))] |}.

(** [w'] differs from [w] at most in the content and the loading status. *)
Definition only_output_changed (w w' : World) : Prop :=
  summary (react w') = summary (react w) /\
  loading (react w') = loading (react w) /\
  error (react w') = error (react w) /\
  settings (react w') = settings (react w) /\
  sent w' = sent w.

(** *** What the page shows *)

(** [{summary && (...)}], the section that holds the generate button. *)
Definition summary_section_shown (st : State) : bool :=
  Js.truthy (summary st).

(** [disabled={loading || !settings.apiKey}]. *)
Definition generate_button_disabled (st : State) : bool :=
  loading st || String.eqb (apiKey (settings st)) "".

End App.

(** ** A JSON.parse *)

(** A model of the platform's [JSON.parse] on the JSON texts whose numbers
    are integers and whose string escapes are the one-letter ones.  Running
    out of input anywhere is reported with V8's message
    [Unexpected end of JSON input]; the other messages name the offending
    character.  The handlers compare a message with the end-of-input one
    only. *)
Module Json.

Definition quote : ascii := Ascii.ascii_of_nat 34.
Definition backslash : ascii := Ascii.ascii_of_nat 92.

(** Writes a text with apostrophes in place of double quotes. *)
Fixpoint dq (s : string) : string :=
  match s with
  | EmptyString => EmptyString
  | String c r => String (if Ascii.eqb c "'"%char then quote else c) (dq r)
  end.

Definition end_of_input : Error :=
  new_Error_msg "Unexpected end of JSON input".

Definition unexpected (c : ascii) : Error :=
  new_Error_msg ("Unexpected token " +:+ String c EmptyString +:+ " in JSON").

Definition is_ws (c : ascii) : bool :=
  let n := Ascii.nat_of_ascii c in
  Nat.eqb n 32 || Nat.eqb n 9 || Nat.eqb n 10 || Nat.eqb n 13.

Fixpoint skip_ws (s : list ascii) : list ascii :=
  match s with
  | c :: r => if is_ws c then skip_ws r else s
  | [] => []
  end.

(** Reads the literal [lit] off the front of [s]. *)
Fixpoint expect (lit s : list ascii) : completion (list ascii) :=
  match lit with
  | [] => Normal s
  | c :: lit' =>
      match s with
      | [] => Throw end_of_input
      | d :: r => if Ascii.eqb c d then expect lit' r else Throw (unexpected d)
      end
  end.

Definition digit (c : ascii) : option Z :=
  let n := Ascii.nat_of_ascii c in
  if Nat.leb 48 n && Nat.leb n 57 then Some (Z.of_nat (n - 48)) else None.

Fixpoint digits (s : list ascii) (acc : Z) : Z * list ascii :=
  match s with
  | c :: r =>
      match digit c with
      | Some d => digits r (10 * acc + d)
      | None => (acc, s)
      end
  | [] => (acc, [])
  end.

(** An integer: [0], or a nonzero digit followed by digits. *)
Definition natural (s : list ascii) : completion (Z * list ascii) :=
  match s with
  | [] => Throw end_of_input
  | c :: r =>
      match digit c with
      | Some 0%Z => Normal (0%Z, r)
      | Some d => Normal (digits r d)
      | None => Throw (unexpected c)
      end
  end.

Definition unescape (c : ascii) : option ascii :=
  if Ascii.eqb c quote then Some quote
  else if Ascii.eqb c backslash then Some backslash
  else if Ascii.eqb c "/"%char then Some "/"%char
  else if Ascii.eqb c "n"%char then Some (Ascii.ascii_of_nat 10)
  else if Ascii.eqb c "t"%char then Some (Ascii.ascii_of_nat 9)
  else if Ascii.eqb c "r"%char then Some (Ascii.ascii_of_nat 13)
  else if Ascii.eqb c "b"%char then Some (Ascii.ascii_of_nat 8)
  else if Ascii.eqb c "f"%char then Some (Ascii.ascii_of_nat 12)
  else None.

(** The characters of a string literal after its opening quote; [acc] holds
    the characters read so far, last first. *)
Fixpoint string_body (s : list ascii) (acc : list ascii)
  : completion (string * list ascii) :=
  match s with
  | [] => Throw end_of_input
  | c :: r =>
      if Ascii.eqb c quote then
        Normal (string_of_list_ascii (rev acc), r)
      else if Ascii.eqb c backslash then
        match r with
        | [] => Throw end_of_input
        | e :: r' =>
            match unescape e with
            | Some x => string_body r' (x :: acc)
            | None => Throw (new_Error_msg "Bad escaped character in JSON")
            end
        end
      else if Nat.ltb (Ascii.nat_of_ascii c) 32 then
        Throw (new_Error_msg "Bad control character in string literal in JSON")
      else string_body r (c :: acc)
  end.

Fixpoint value (fuel : nat) (s : list ascii) {struct fuel}
  : completion (jsval * list ascii) :=
  match fuel with
  | O => Throw (new_Error_msg "Maximum nesting exceeded")
  | S f =>
      match skip_ws s with
      | [] => Throw end_of_input
      | c :: r =>
          if Ascii.eqb c "{"%char then
            match skip_ws r with
            | [] => Throw end_of_input
            | d :: r' =>
                if Ascii.eqb d "}"%char then Normal (JObj [], r')
                else members f (d :: r') []
            end
          else if Ascii.eqb c "["%char then
            match skip_ws r with
            | [] => Throw end_of_input
            | d :: r' =>
                if Ascii.eqb d "]"%char then Normal (JArr [], r')
                else elements f (d :: r') []
            end
          else if Ascii.eqb c quote then
            match string_body r [] with
            | Normal (str, r') => Normal (JStr str, r')
            | Throw e => Throw e
            end
          else if Ascii.eqb c "t"%char then
            match expect (list_ascii_of_string "rue") r with
            | Normal r' => Normal (JBool true, r')
            | Throw e => Throw e
            end
          else if Ascii.eqb c "f"%char then
            match expect (list_ascii_of_string "alse") r with
            | Normal r' => Normal (JBool false, r')
            | Throw e => Throw e
            end
          else if Ascii.eqb c "n"%char then
            match expect (list_ascii_of_string "ull") r with
            | Normal r' => Normal (JNull, r')
            | Throw e => Throw e
            end
          else if Ascii.eqb c "-"%char then
            match natural r with
            | Normal (n, r') => Normal (JNum (- n), r')
            | Throw e => Throw e
            end
          else
            match natural (c :: r) with
            | Normal (n, r') => Normal (JNum n, r')
            | Throw e => Throw e
            end
      end
  end

with elements (fuel : nat) (s : list ascii) (acc : list jsval) {struct fuel}
  : completion (jsval * list ascii) :=
  match fuel with
  | O => Throw (new_Error_msg "Maximum nesting exceeded")
  | S f =>
      match value f s with
      | Throw e => Throw e
      | Normal (v, r) =>
          match skip_ws r with
          | [] => Throw end_of_input
          | c :: r' =>
              if Ascii.eqb c ","%char then elements f r' (acc ++ [v])
              else if Ascii.eqb c "]"%char then Normal (JArr (acc ++ [v]), r')
              else Throw (unexpected c)
          end
      end
  end

with members (fuel : nat) (s : list ascii) (acc : list (string * jsval))
  {struct fuel} : completion (jsval * list ascii) :=
  match fuel with
  | O => Throw (new_Error_msg "Maximum nesting exceeded")
  | S f =>
      match skip_ws s with
      | [] => Throw end_of_input
      | c :: r =>
          if Ascii.eqb c quote then
            match string_body r [] with
            | Throw e => Throw e
            | Normal (key, r1) =>
                match expect [":"%char] (skip_ws r1) with
                | Throw e => Throw e
                | Normal r2 =>
                    match value f r2 with
                    | Throw e => Throw e
                    | Normal (v, r3) =>
                        match skip_ws r3 with
                        | [] => Throw end_of_input
                        | d :: r4 =>
                            if Ascii.eqb d ","%char then
                              members f r4 (Js.set key v acc)
                            else if Ascii.eqb d "}"%char then
                              Normal (JObj (Js.set key v acc), r4)
                            else Throw (unexpected d)
                        end
                    end
                end
            end
          else Throw (unexpected c)
      end
  end.

Definition parse : parser :=
  fun text =>
    let s := list_ascii_of_string text in
    match value (2 * length s + 2) s with
    | Throw e => Throw e
    | Normal (v, r) =>
        match skip_ws r with
        | [] => Normal v
        | c :: _ => Throw (unexpected c)
        end
    end.

End Json.

(** ** CsvUpload.jsx *)

Module CsvUpload.

Record State : Type := { fileName : option string; isDragging : bool }.

Definition initial : State := {| fileName := None; isDragging := false |}.

(** What a handler of the upload zone does to the outside: it calls the
    [onUpload] prop or shows an alert. *)
Inductive effect : Type :=
| onUpload (file : File)
| alert (msg : string).

Definition setFileName (n : string) (st : State) : State :=
  {| fileName := Some n; isDragging := isDragging st |}.

Definition setIsDragging (b : bool) (st : State) : State :=
  {| fileName := fileName st; isDragging := b |}.

(** [file] is [None] when [files[0]] is [undefined]. *)
Definition handleFileSelect (file : option File) (st : State)
  : State * list effect :=
  match file with
  | Some f =>
      if JsString.endsWith ".csv" (name f)
      then (setFileName (name f) st, [onUpload f])
      else (st, [alert "Please select a CSV file"])
  | None => (st, [alert "Please select a CSV file"])
  end.

Definition handleChange (files : list File) (st : State)
  : State * list effect :=
  handleFileSelect (head files) st.

Definition handleDrop (files : list File) (st : State)
  : State * list effect :=
  handleFileSelect (head files) (setIsDragging false st).

(** The files handed to [onUpload], in call order. *)
Definition uploads (l : list effect) : list File :=
  flat_map (fun e => match e with onUpload f => [f] | alert _ => [] end) l.

Definition handleDragOver (st : State) : State := setIsDragging true st.

Definition handleDragLeave (st : State) : State := setIsDragging false st.

(** What the user does to the zone, and the handler each event runs. *)
Inductive event : Type :=
| Change (files : list File)
| DragOver
| DragLeave
| Drop (files : list File).

Definition handle (e : event) (st : State) : State * list effect :=
  match e with
  | Change files => handleChange files st
  | DragOver => (handleDragOver st, [])
  | DragLeave => (handleDragLeave st, [])
  | Drop files => handleDrop files st
  end.

(** A sequence of events, with the effects in the order they happen. *)
Fixpoint run (es : list event) (st : State) : State * list effect :=
  match es with
  | [] => (st, [])
  | e :: r =>
      let '(st1, out1) := handle e st in
      let '(st2, out2) := run r st1 in
      (st2, out1 ++ out2)
  end.

End CsvUpload.

(** ** Settings.jsx *)

(** The load, save and clear handlers below are those of [Settings.jsx];
    the two other revisions of the component among the sources add a
    balance check to them, which reads the key and touches neither the
    two fields nor the store. *)

Module SettingsPanel.

Definition default_model : string := "gpt-5-mini-2025-08-07".

Record State : Type := {
  isOpen : bool;
  apiKey : string;
  model : string;
  saved : bool
}.

(** The component with its surroundings: its state, the browser's
    [localStorage], and the calls of the [onSettingsChange] prop (oldest
    first). *)
Record World : Type := {
  state : State;
  localStorage : gmap string string;
  notified : list App.Settings
}.

(** The [useState] initial values. *)
Definition initial : State :=
  {| isOpen := false; apiKey := ""; model := default_model; saved := false |}.

(** [localStorage.getItem(k) || d]. *)
Definition getItem_or (k : string) (ls : gmap string string) (d : string)
  : string :=
  match ls !! k with
  | Some s => if String.eqb s "" then d else s
  | None => d
  end.

(** The mount effect. *)
Definition on_mount (w : World) : World :=
  let savedKey := getItem_or "openai_api_key" (localStorage w) "" in
  let savedModel := getItem_or "openai_model" (localStorage w) default_model in
  {| state := {| isOpen := isOpen (state w); apiKey := savedKey;
                 model := savedModel; saved := saved (state w) |};
     localStorage := localStorage w;
     notified := notified w ++
                   [{| App.apiKey := savedKey; App.model := savedModel |}] |}.

(** A fresh instance of the component mounted over a given store. *)
Definition mount (ls : gmap string string) : World :=
  on_mount {| state := initial; localStorage := ls; notified := [] |}.

(** The [onChange] handlers of the two inputs. *)
Definition setApiKey (v : string) (w : World) : World :=
  {| state := {| isOpen := isOpen (state w); apiKey := v;
                 model := model (state w); saved := saved (state w) |};
     localStorage := localStorage w; notified := notified w |}.

Definition setModel (v : string) (w : World) : World :=
  {| state := {| isOpen := isOpen (state w); apiKey := apiKey (state w);
                 model := v; saved := saved (state w) |};
     localStorage := localStorage w; notified := notified w |}.

(** [handleSave]; the timer that resets [saved] two seconds later is
    [saved_timeout]. *)
Definition handleSave (w : World) : World :=
  let k := apiKey (state w) in
  let m := model (state w) in
  {| state := {| isOpen := isOpen (state w); apiKey := k; model := m;
                 saved := true |};
     localStorage :=
       <["openai_model" := m]> (<["openai_api_key" := k]> (localStorage w));
     notified := notified w ++ [{| App.apiKey := k; App.model := m |}] |}.

Definition saved_timeout (w : World) : World :=
  {| state := {| isOpen := isOpen (state w); apiKey := apiKey (state w);
                 model := model (state w); saved := false |};
     localStorage := localStorage w; notified := notified w |}.

Definition handleClear (w : World) : World :=
  {| state := {| isOpen := isOpen (state w); apiKey := "";
                 model := default_model; saved := saved (state w) |};
     localStorage :=
       delete "openai_model" (delete "openai_api_key" (localStorage w));
     notified := notified w ++
                   [{| App.apiKey := ""; App.model := default_model |}] |}.

(** [apiKey.length > 0]. *)
Definition isConfigured (st : State) : bool :=
  Nat.ltb 0 (String.length (apiKey st)).

(** What the user does in the panel, and the handler each action runs. *)
Inductive action : Type :=
| TypeKey (v : string)
| TypeModel (v : string)
| Save
| SavedTimeout
| Clear.

Definition act (a : action) (w : World) : World :=
  match a with
  | TypeKey v => setApiKey v w
  | TypeModel v => setModel v w
  | Save => handleSave w
  | SavedTimeout => saved_timeout w
  | Clear => handleClear w
  end.

Definition run (l : list action) (w : World) : World :=
  fold_left (fun w a => act a w) l w.

(** The settings the parent holds: those of the last call of
    [onSettingsChange], the parent's initial ones before any call. *)
Definition parent_settings (w : World) : App.Settings :=
  List.last (notified w) (App.settings App.initial).

(** The settings the parent holds are those a reload would restore, an
    empty model standing for the default one. *)
Definition in_step (w : World) : Prop :=
  getItem_or "openai_api_key" (localStorage w) ""
    = App.apiKey (parent_settings w) /\
  getItem_or "openai_model" (localStorage w) default_model
    = (if String.eqb (App.model (parent_settings w)) ""
       then default_model
       else App.model (parent_settings w)).

End SettingsPanel.

(** ** ContentDisplay.jsx *)

Module ContentDisplay.

Definition blank_line : string :=
  String JsString.newline (String JsString.newline EmptyString).

(** [v?.k] for a data property [k]: [undefined] on [null] and
    [undefined], the property or [undefined] otherwise. *)
Definition opt_get (v : jsval) (k : string) : jsval :=
  match v with
  | JObj props => Js.prop props k
  | _ => JUndefined
  end.

(** [Array.prototype.join]: [null] and [undefined] elements give the
    empty string. *)
Definition join_item (x : jsval) : string :=
  match x with
  | JUndefined | JNull => ""
  | _ => Js.ToString x
  end.

Fixpoint join (sep : string) (items : list jsval) : string :=
  match items with
  | [] => ""
  | x :: r =>
      match r with
      | [] => join_item x
      | _ :: _ => join_item x +:+ sep +:+ join sep r
      end
  end.

(** [h?.join(sep)]: [undefined] on [null] and [undefined], the joined
    string on an array, a TypeError on any other value, which has no
    [join] method. *)
Definition opt_join (h : jsval) (sep : string) : completion jsval :=
  match h with
  | JUndefined | JNull => Normal JUndefined
  | JArr items => Normal (JStr (join sep items))
  | _ => Throw (new_Error_msg "join is not a function")
  end.

(** In the texts below [content] is truthy: the component returns
    before them otherwise. *)

(** The [text] of the copy button in the header of the Instagram and
    TikTok cards, with [part] the name of the card's property:
    [content[part]?.caption + '\n\n' + content[part]?.hashtags?.join(' ')
    || '']. *)
Definition header_copy_text (part : string) (content : jsval)
  : completion string :=
  let card := opt_get content part in
  match opt_join (opt_get card "hashtags") " " with
  | Throw e => Throw e
  | Normal tags =>
      let text :=
        Js.ToString (opt_get card "caption") +:+ blank_line +:+
        Js.ToString tags in
      Normal (if String.eqb text "" then "" else text)
  end.

(** [ideas.map(i => i.text)]. *)
Fixpoint idea_texts (ideas : list jsval) : completion (list jsval) :=
  match ideas with
  | [] => Normal []
  | i :: r =>
      match Js.get i "text" with
      | Throw e => Throw e
      | Normal t =>
          match idea_texts r with
          | Throw e => Throw e
          | Normal ts => Normal (t :: ts)
          end
      end
  end.

(** [content.promotion_ideas?.map(i => i.text).join('\n\n') || '']. *)
Definition ideas_copy_text (content : jsval) : completion string :=
  match opt_get content "promotion_ideas" with
  | JUndefined | JNull => Normal ""
  | JArr ideas =>
      match idea_texts ideas with
      | Throw e => Throw e
      | Normal texts =>
          let text := join blank_line texts in
          Normal (if String.eqb text "" then "" else text)
      end
  | _ => Throw (new_Error_msg "map is not a function")
  end.

End ContentDisplay.

(** ** The server's event stream *)

Module Pipeline.

(** Modelled from the spec: the stage and event types of the server's
    generation endpoint (design section 3, StreamEvent); the server is not
    among the sources. *)
Inductive stage : Type :=
| connecting
| generating
| streaming (partial_char_count : nat)
| processing.

(** Modelled from the spec: the generated content (design section 3,
    GeneratedContent). *)
Record GeneratedContent : Type := {
  instagram : string * list string;
  tiktok : string * list string;
  promotion_ideas : list (string * string)
}.

(** Modelled from the spec: StreamEvent, a stage transition or one of the
    two terminal events. *)
Inductive StreamEvent : Type :=
| status (s : stage)
| data (c : GeneratedContent)
| error (msg : string).

(** Modelled from the spec: the failures of a generation request (design
    sections 4.5, 4.6 and 7). *)
Inductive failure : Type :=
| AuthError
| RateLimitError
| ModelUnavailable
| UpstreamTimeout
| MalformedModelOutput
| SchemaValidationError (field : string).

(** Modelled from the spec: what one streaming call to the model endpoint
    delivers, the tokens received and how the stream ended ([None]: it
    signalled completion), and whether the client stays to the end
    (design section 5): [abandoned] is [Some k] when the client
    disconnects while the handler, [k] tokens consumed, awaits the
    upstream. *)
Record upstream : Type := {
  tokens : list string;
  ending : option failure;
  abandoned : option nat
}.

Definition is_terminal (e : StreamEvent) : bool :=
  match e with
  | status _ => false
  | data _ | error _ => true
  end.

(** The place of a stage in the pipeline. *)
Definition rank (s : stage) : nat :=
  match s with
  | connecting => 0
  | generating => 1
  | streaming _ => 2
  | processing => 3
  end.

(** Stages listed in pipeline order: none is followed by an earlier
    one. *)
Definition in_order (l : list stage) : Prop :=
  StronglySorted (fun a b => rank a <= rank b) l.

Section Emitter.

(** The parts the design leaves to the implementation: the parser and
    validator of the accumulated text, the message of a failure, and the
    cadence on which a count is reported. *)
Variable parse_validate : string -> GeneratedContent + failure.
Variable describe : failure -> string.
Variable throttle : nat -> bool.

(** Modelled from the spec: the events of the token loop (design section
    4.5): [generating] on the first token, then [streaming] with the
    length accumulated so far whenever the cadence allows; the server's
    code is not among the sources.  [seen] counts the tokens before
    [toks]; the result pairs the events with the accumulated text. *)
Fixpoint token_events (seen : nat) (acc : string) (toks : list string)
  : list StreamEvent * string :=
  match toks with
  | [] => ([], acc)
  | t :: r =>
      let acc' := acc +:+ t in
      let here :=
        match seen with
        | O => [status generating]
        | S _ => if throttle seen
                 then [status (streaming (String.length acc'))]
                 else []
        end in
      let '(later, raw) := token_events (S seen) acc' r in
      (here ++ later, raw)
  end.

(** Modelled from the spec: the terminal event of a request (design
    sections 4.5 to 4.7): the error of an upstream failure, or
    [processing] followed by the validated content or the error of the
    parser and validator. *)
Definition closing (raw : string) (e : option failure) : list StreamEvent :=
  match e with
  | Some f => [error (describe f)]
  | None =>
      [status processing;
       match parse_validate raw with
       | inl c => data c
       | inr f => error (describe f)
       end]
  end.

(** Modelled from the spec: the event stream of one generation request
    (design sections 4.5 to 4.7 and 5), [connecting] first.  When the
    client disconnects mid-stream the handler stops consuming and
    emitting: the events are those of the tokens consumed so far, and no
    closing event follows. *)
Definition event_stream (u : upstream) : list StreamEvent :=
  match abandoned u with
  | None =>
      let '(progress, raw) := token_events 0 "" (tokens u) in
      status connecting :: progress ++ closing raw (ending u)
  | Some k =>
      status connecting :: fst (token_events 0 "" (firstn k (tokens u)))
  end.

(** The same request with the client staying to the end. *)
Definition attended (u : upstream) : upstream :=
  {| tokens := tokens u; ending := ending u; abandoned := None |}.

End Emitter.

End Pipeline.

(** ** Concrete streams and servers *)

Module Examples.

Definition base : string := "http://localhost:8000".

(** A summary as [POST /upload-csv] returns it. *)
Definition summary_text : string :=
  Json.dq "{'date_range':{'start':'2025-01-01','end':'2025-01-01'},'top_items':[{'item_name':'Pho Beef','quantity':25}],'top_categories':[],'insights':[]}".

Definition summary_fields : list (string * jsval) :=
  [("date_range",
    JObj [("start", JStr "2025-01-01"); ("end", JStr "2025-01-01")]);
   ("top_items",
    JArr [JObj [("item_name", JStr "Pho Beef"); ("quantity", JNum 25)]]);
   ("top_categories", JArr []);
   ("insights", JArr [])].

Definition configured : App.Settings :=
  {| App.apiKey := "sk-test"; App.model := "gpt-5-mini-2025-08-07" |}.

(** The state after a successful upload with the settings saved. *)
Definition ready : App.World :=
  {| App.react :=
       {| App.summary := JObj summary_fields; App.content := JNull;
          App.loading := false; App.loadingStatus := ""; App.error := None;
          App.settings := configured |};
     App.sent := [] |}.

Definition fresh : App.World := {| App.react := App.initial; App.sent := [] |}.


(** A server that answers every request with status 200 and the given
    chunks, and one that answers with an error status. *)
Definition streams (cs : list string) : request -> fetch_result :=
  fun _ => Responded {| ok := true; status := 200; chunks := cs |}.

Definition refuses (code : Z) (text : string) : request -> fetch_result :=
  fun _ => Responded {| ok := false; status := code; chunks := [text] |}.

Definition complete_line : string :=
  Json.dq "data: {'status':'complete','data':{'instagram':{'caption':'Pho!','hashtags':['#pho']}}}".

Definition complete_with_error_line : string :=
  Json.dq "data: {'status':'complete','data':'x','error':'boom'}".

Definition empty_error_line : string :=
  Json.dq "data: {'error':'','status':'complete','data':'x'}".

Definition masked_error_line : string :=
  Json.dq "data: {'error':'Unexpected end of JSON input'}".

Definition error_line : string :=
  Json.dq "data: {'error':'Invalid API key'}".

Definition streaming_line : string :=
  Json.dq "data: {'status':'streaming','partial':120}".




Definition complete_props : list (string * jsval) :=
  [("status", JStr "complete");
   ("data",
    JObj [("instagram",
           JObj [("caption", JStr "Pho!");
                 ("hashtags", JArr [JStr "#pho"])])])].

Definition streaming_event : jsval :=
  JObj [("status", JStr "streaming"); ("partial", JNum 120)].

Definition csv_file : File := {| name := "sales.csv"; bytes := "" |}.

(** A panel mounted over an empty store in which the user has typed the
    key [k] and the model [m]. *)
Definition typed (k m : string) : SettingsPanel.World :=
  SettingsPanel.setModel m
    (SettingsPanel.setApiKey k (SettingsPanel.mount ∅)).

End Examples.

(** ** More concrete inputs *)

Module Cases.

Definition nl2 : string := ContentDisplay.blank_line.

Definition error_stream : list string :=
  [Examples.streaming_line +:+ nl2;
   Examples.error_line +:+ nl2 +:+ Examples.complete_line +:+ nl2].

Definition complete_stream : list string :=
  [Examples.streaming_line +:+ nl2; Examples.complete_line +:+ nl2].

Definition ok_response (cs : list string) : response :=
  {| ok := true; status := 200; chunks := cs |}.

Definition offline : request -> fetch_result :=
  fun _ => Rejected (new_Error_msg "Failed to fetch").

Definition future_line : string :=
  Json.dq "data: {'status':'queued','position':3}".

(** The complete line and the error line of the examples, each followed
    by a blank line and cut in two inside the payload. *)
Definition complete_head : string :=
  Json.dq "data: {'status':'complete','data':{'instagram':{'capt".

Definition complete_tail : string :=
  Json.dq "ion':'Pho!','hashtags':['#pho']}}}" +:+ nl2.

Definition error_head : string := Json.dq "data: {'error':'Inval".

Definition error_tail : string := Json.dq "id API key'}" +:+ nl2.

Definition connecting_with_error_line : string :=
  Json.dq "data: {'status':'connecting','error':'boom'}".

(** A request the client leaves after the first token, with a validator
    that accepts nothing and an event on every token. *)
Definition left_early : Pipeline.upstream :=
  {| Pipeline.tokens := ["Hi"; " there"]; Pipeline.ending := None;
     Pipeline.abandoned := Some 1 |}.

Definition rejects_all (raw : string)
  : Pipeline.GeneratedContent + Pipeline.failure :=
  inr Pipeline.MalformedModelOutput.

Definition kind_name (f : Pipeline.failure) : string :=
  match f with
  | Pipeline.AuthError => "AuthError"
  | Pipeline.RateLimitError => "RateLimitError"
  | Pipeline.ModelUnavailable => "ModelUnavailable"
  | Pipeline.UpstreamTimeout => "UpstreamTimeout"
  | Pipeline.MalformedModelOutput => "MalformedModelOutput"
  | Pipeline.SchemaValidationError field => "SchemaValidationError"
  end.

Definition every_token (n : nat) : bool := true.

Definition themed_store : gmap string string := {[ "theme" := "dark" ]}.

Definition keyed_store : gmap string string :=
  {[ "openai_api_key" := "sk-test" ]}.

Definition ideas_content : jsval :=
  JObj [("promotion_ideas",
         JArr [JObj [("text", JStr "Two for one");
                     ("reason", JStr "Pho sells best")];
               JObj [("text", JStr "Happy hour");
                     ("reason", JStr "Evenings are slow")]])].

Definition selections : list CsvUpload.event :=
  [CsvUpload.DragOver;
   CsvUpload.Drop [Examples.csv_file];
   CsvUpload.Change [{| name := "notes.txt"; bytes := "" |}]].

End Cases.

(** * Properties *)

(** ** Strings and property lists *)

Lemma endsWith_suffix (suf s : string) :
  JsString.endsWith suf s = true <-> exists pre, s = pre +:+ suf.
Proof.
  induction s as [|c r IH]; cbn [JsString.endsWith].
  - destruct (String.eqb_spec suf "") as [->|Hne].
    + split; [|done]. by exists "".
    + split; [done|]. intros [pre Hpre].
      destruct pre; simpl in Hpre; [|done]. by subst.
  - destruct (String.eqb_spec suf (String c r)) as [->|Hne].
    + split; [|done]. by exists "".
    + rewrite IH. split.
      * intros [pre ->]. by exists (String c pre).
      * intros [pre Hpre]. destruct pre as [|d pre]; simpl in Hpre.
        -- by subst.
        -- injection Hpre as -> ->. by exists pre.
Qed.

Lemma lookup_set (k k' : string) (v : jsval) (props : list (string * jsval)) :
  Js.lookup k (Js.set k' v props) =
  if String.eqb k k' then Some v else Js.lookup k props.
Proof.
  induction props as [|[k0 v0] r IH]; simpl.
  - done.
  - destruct (String.eqb k' k0) eqn:E0; simpl.
    + apply String.eqb_eq in E0. subst k0.
      by destruct (String.eqb k k').
    + destruct (String.eqb k k0) eqn:E1.
      * apply String.eqb_eq in E1. subst k0.
        by rewrite String.eqb_sym, E0.
      * exact IH.
Qed.

Lemma lookup_app (k : string) (l1 l2 : list (string * jsval)) :
  Js.lookup k (l1 ++ l2) =
  match Js.lookup k l1 with
  | Some v => Some v
  | None => Js.lookup k l2
  end.
Proof.
  induction l1 as [|[k0 v0] r IH]; cbn [Js.lookup app]; [done|].
  by destruct (String.eqb k k0).
Qed.

Lemma set_absent (k : string) (v : jsval) (props : list (string * jsval)) :
  Js.lookup k props = None -> Js.set k v props = props ++ [(k, v)].
Proof.
  induction props as [|[k0 v0] r IH]; simpl; [done|].
  destruct (String.eqb k k0); [done|].
  intros H. by rewrite IH.
Qed.

(** ** The handlers' monad *)

Lemma bind_throw {A B} (m : App.M A) (k : A -> App.M B)
    (w w' : App.World) (e : Error) :
  m w = (w', Throw e) -> App.bind m k w = (w', Throw e).
Proof. intros H. unfold App.bind. by rewrite H. Qed.

Lemma bind_normal {A B} (m : App.M A) (k : A -> App.M B)
    (w w' : App.World) (a : A) :
  m w = (w', Normal a) -> App.bind m k w = k a w'.
Proof. intros H. unfold App.bind. by rewrite H. Qed.

Lemma quiet_ret {A} (a : A) : App.quiet (App.ret a).
Proof. by intros w. Qed.

Lemma quiet_throw {A} (e : Error) : App.quiet (@App.throw A e).
Proof. by intros w. Qed.

Lemma quiet_lift {A} (c : completion A) : App.quiet (App.lift c).
Proof. by intros w. Qed.

Lemma quiet_modify (f : App.State -> App.State) : App.quiet (App.modify f).
Proof. by intros w. Qed.

Lemma quiet_bind {A B} (m : App.M A) (k : A -> App.M B) :
  App.quiet m -> (forall a, App.quiet (k a)) -> App.quiet (App.bind m k).
Proof.
  intros Hm Hk w. unfold App.bind.
  specialize (Hm w). destruct (m w) as [w' [a|e]]; simpl in *.
  - by rewrite Hk.
  - done.
Qed.

Lemma quiet_try_catch {A} (m : App.M A) (h : Error -> App.M A) :
  App.quiet m -> (forall e, App.quiet (h e)) -> App.quiet (App.try_catch m h).
Proof.
  intros Hm Hh w. unfold App.try_catch.
  specialize (Hm w). destruct (m w) as [w' [a|e]]; simpl in *.
  - done.
  - by rewrite Hh.
Qed.

Lemma quiet_try_finally {A} (m : App.M A) (f : App.M unit) :
  App.quiet m -> App.quiet f -> App.quiet (App.try_finally m f).
Proof.
  intros Hm Hf w. unfold App.try_finally.
  specialize (Hm w). destruct (m w) as [w' c]; simpl in *.
  specialize (Hf w'). destruct (f w') as [w'' [[]|e]]; simpl in *; congruence.
Qed.

Lemma quiet_if {A} (b : bool) (m1 m2 : App.M A) :
  App.quiet m1 -> App.quiet m2 -> App.quiet (if b then m1 else m2).
Proof. by destruct b. Qed.

Create HintDb quiet.
#[local] Hint Resolve quiet_ret quiet_throw quiet_lift quiet_modify
  quiet_bind quiet_try_catch quiet_try_finally quiet_if : quiet.
#[local] Hint Unfold App.setSummary App.setContent App.setLoading
  App.setLoadingStatus App.setError App.setSettings : quiet.

(** ** The generation stream *)

Section Stream.

Variable JSON_parse : parser.

(** A line that parses to an object with a falsy [error] goes on to the
    status chain. *)
Lemma process_line_event (line : string) (w : App.World)
    (props : list (string * jsval)) :
  JSON_parse (JsString.slice 6 line) = Normal (JObj props) ->
  Js.truthy (Js.prop props "error") = false ->
  App.process_line JSON_parse line w = App.status_dispatch (JObj props) w.
Proof.
  intros Hp He.
  unfold App.process_line, App.try_catch, App.bind, App.lift.
  rewrite Hp. simpl. rewrite He. simpl.
  destruct (App.status_dispatch (JObj props) w) as [w' [[]|e]] eqn:E; [done|].
  exfalso. revert E.
  unfold App.status_dispatch, App.bind, App.lift. simpl.
  repeat (match goal with
          | |- context [if ?b then _ else _] => destruct b
          end; simpl; try discriminate).
Qed.

(** The status chain never throws on an object. *)
Lemma status_dispatch_normal (props : list (string * jsval)) (w : App.World) :
  snd (App.status_dispatch (JObj props) w) = Normal tt.
Proof.
  unfold App.status_dispatch, App.bind, App.lift. simpl.
  repeat (match goal with
          | |- context [if ?b then _ else _] => destruct b
          end; simpl; try done).
Qed.

Lemma strict_eq_str_true (v : jsval) (lit : string) :
  Js.strict_eq_str v lit = true <-> v = JStr lit.
Proof.
  destruct v; simpl; try (split; [discriminate|discriminate]).
  rewrite String.eqb_eq. split; [by intros ->|by intros [= ->]].
Qed.

(** What the status chain does for each progress status. *)
Lemma status_dispatch_cases (data : jsval) (w : App.World) :
  (Js.get data "status" = Normal (JStr "connecting") ->
   App.status_dispatch data w =
   App.setLoadingStatus "Connecting to AI..." w) /\
  (Js.get data "status" = Normal (JStr "generating") ->
   App.status_dispatch data w =
   App.setLoadingStatus "Generating marketing content..." w) /\
  (forall partial : jsval,
     Js.get data "status" = Normal (JStr "streaming") ->
     Js.get data "partial" = Normal partial ->
     App.status_dispatch data w =
     App.setLoadingStatus
       ("Generating content... (" +:+ Js.ToString partial +:+ " chars)") w) /\
  (forall n : Z,
     Js.get data "status" = Normal (JStr "streaming") ->
     Js.get data "partial" = Normal (JNum n) ->
     App.loadingStatus (App.react (fst (App.status_dispatch data w))) =
     "Generating content... (" +:+ pretty n +:+ " chars)") /\
  (Js.get data "status" = Normal (JStr "processing") ->
   App.status_dispatch data w =
   App.setLoadingStatus "Processing response..." w).
Proof.
  unfold App.status_dispatch, App.bind, App.lift.
  repeat split; intros.
  - by rewrite H.
  - by rewrite H.
  - rewrite H. simpl. by rewrite H0.
  - rewrite H. simpl. by rewrite H0.
  - by rewrite H.
Qed.

(** C5 (amended).  A line the loop processes whose payload is an object
    with no truthy [error] sets the loading status by its progress
    status: [connecting] gives [Connecting to AI...], [generating] gives
    [Generating marketing content...], [streaming] gives
    [Generating content... (N chars)] where N is the text of the
    payload's [partial] (its decimal digits when it is a number), and
    [processing] gives [Processing response...]; nothing else of the
    state changes. *)
Theorem progress_status_messages (line : string) (w : App.World)
    (props : list (string * jsval)) :
  JSON_parse (JsString.slice 6 line) = Normal (JObj props) ->
  Js.truthy (Js.prop props "error") = false ->
  (Js.prop props "status" = JStr "connecting" ->
   App.process_line JSON_parse line w =
   App.setLoadingStatus "Connecting to AI..." w) /\
  (Js.prop props "status" = JStr "generating" ->
   App.process_line JSON_parse line w =
   App.setLoadingStatus "Generating marketing content..." w) /\
  (Js.prop props "status" = JStr "streaming" ->
   App.process_line JSON_parse line w =
   App.setLoadingStatus
     ("Generating content... (" +:+
      Js.ToString (Js.prop props "partial") +:+ " chars)") w) /\
  (forall n : Z,
     Js.prop props "status" = JStr "streaming" ->
     Js.prop props "partial" = JNum n ->
     App.loadingStatus
       (App.react (fst (App.process_line JSON_parse line w))) =
     "Generating content... (" +:+ pretty n +:+ " chars)") /\
  (Js.prop props "status" = JStr "processing" ->
   App.process_line JSON_parse line w =
   App.setLoadingStatus "Processing response..." w).
Proof.
  intros Hp He.
  rewrite (process_line_event line w props Hp He).
  destruct (status_dispatch_cases (JObj props) w)
    as (Hc & Hg & Hs & Hn & Hpr).
  repeat split.
  - intros H. apply Hc. simpl. by rewrite H.
  - intros H. apply Hg. simpl. by rewrite H.
  - intros H. apply Hs; simpl; [by rewrite H|done].
  - intros n H Hpart. apply Hn; simpl; [by rewrite H|by rewrite Hpart].
  - intros H. apply Hpr. simpl. by rewrite H.
Qed.


Lemma quiet_status_dispatch (data : jsval) :
  App.quiet (App.status_dispatch data).
Proof.
  unfold App.status_dispatch.
  apply quiet_bind; [auto with quiet|]. intros status.
  repeat (apply quiet_if; [autounfold with quiet; auto 6 with quiet|]).
  auto with quiet.
Qed.

Lemma quiet_process_line (line : string) :
  App.quiet (App.process_line JSON_parse line).
Proof.
  unfold App.process_line.
  apply quiet_try_catch.
  - apply quiet_bind; [auto with quiet|]. intros data.
    apply quiet_bind; [auto with quiet|]. intros err.
    apply quiet_bind; [auto with quiet|]. intros _.
    apply quiet_status_dispatch.
  - intros e. auto with quiet.
Qed.

Lemma quiet_for_lines (lines : list string) :
  App.quiet (App.for_lines JSON_parse lines).
Proof.
  induction lines as [|l ls IH]; cbn [App.for_lines].
  - auto with quiet.
  - apply quiet_bind; [apply quiet_process_line|by intros _].
Qed.

Lemma quiet_read_loop (chunks : list string) :
  App.quiet (App.read_loop JSON_parse chunks).
Proof.
  induction chunks as [|c cs IH]; cbn [App.read_loop].
  - auto with quiet.
  - apply quiet_bind; [apply quiet_for_lines|by intros _].
Qed.

End Stream.

(** ** The upload and generate handlers *)

Section Requests.

Variable JSON_parse : parser.
Variable net : request -> fetch_result.
Variable API_BASE : string.

(** C3 (amended).  After an upload that the server answers: when the
    response is not ok and its body is a JSON object whose [detail] is a
    non-empty string, that string is the displayed error and the summary
    is null; when the response is ok and its body is a non-empty JSON
    text, the parsed body is the summary (and no error is shown). *)
Theorem upload_outcomes (file : File) (w : App.World) (resp : response) :
  net (App.upload_request API_BASE file) = Responded resp ->
  let w' := fst (App.handleUpload JSON_parse net API_BASE file w) in
  (forall (props : list (string * jsval)) (s : string),
     ok resp = false ->
     JSON_parse (App.response_text resp) = Normal (JObj props) ->
     Js.prop props "detail" = JStr s ->
     s <> "" ->
     App.error (App.react w') = Some s /\
     App.summary (App.react w') = JNull) /\
  (forall data : jsval,
     ok resp = true ->
     App.response_text resp <> "" ->
     JSON_parse (App.response_text resp) = Normal data ->
     App.summary (App.react w') = data /\
     App.error (App.react w') = None).
Proof.
  intros Hnet w'. subst w'. split.
  - intros props s Hok Hp Hd Hne.
    unfold App.handleUpload, App.try_finally, App.try_catch, App.bind,
      App.fetch, App.response_json, App.lift.
    simpl. rewrite Hnet. simpl. rewrite Hok. simpl. rewrite Hp. simpl.
    rewrite Hd. unfold Js.or. simpl.
    destruct (String.eqb_spec s "") as [->|_]; [done|]. simpl.
    destruct (String.eqb_spec s "") as [->|_]; [done|]. done.
  - intros data Hok Hne Hp.
    unfold App.handleUpload, App.try_finally, App.try_catch, App.bind,
      App.fetch, App.response_json, App.lift.
    simpl. rewrite Hnet. simpl. rewrite Hok. simpl.
    destruct (String.eqb_spec (App.response_text resp) "") as [E|_];
      [done|]. simpl.
    rewrite Hp. done.
Qed.

(** C4.  When the generate action goes ahead (a summary object is loaded
    and a key is configured) it sends one request, a POST to
    [/generate-content-stream] whose body is the JSON text of an object
    with exactly these properties: [api_key] and [model] with the values
    of the saved settings, and every other property of the summary with
    its value.  For a summary without properties of those two names the
    object is the summary's properties followed by [api_key] and
    [model]. *)
Theorem generate_request_body (w : App.World)
    (fields : list (string * jsval)) :
  App.summary (App.react w) = JObj fields ->
  App.apiKey (App.settings (App.react w)) <> "" ->
  let key := App.apiKey (App.settings (App.react w)) in
  let model := App.model (App.settings (App.react w)) in
  exists payload : list (string * jsval),
    App.sent (fst (App.handleGenerate JSON_parse net API_BASE w)) =
      App.sent w ++
      [{| url := API_BASE +:+ "/generate-content-stream";
          method := "POST";
          headers := [("Content-Type", "application/json")];
          body := JsonBody (JObj payload) |}] /\
    (forall k : string,
       Js.lookup k payload =
       if String.eqb k "model" then Some (JStr model)
       else if String.eqb k "api_key" then Some (JStr key)
       else Js.lookup k fields) /\
    (Js.lookup "api_key" fields = None ->
     Js.lookup "model" fields = None ->
     payload = fields ++ [("api_key", JStr key); ("model", JStr model)]).
Proof.
  intros Hs Hk key model.
  exists (Js.set "model" (JStr model) (Js.set "api_key" (JStr key) fields)).
  split; [|split].
  - unfold App.handleGenerate. rewrite Hs. simpl.
    destruct (String.eqb_spec (App.apiKey (App.settings (App.react w))) "")
      as [E|_]; [done|].
    set (req := App.generate_request API_BASE (JObj fields)
                  (App.settings (App.react w))).
    unfold App.generate_guarded.
    match goal with
    | |- App.sent (fst (App.bind _ (fun _ => App.bind _ (fun _ =>
           App.bind _ (fun _ => App.try_finally (App.try_catch ?m ?h) ?f)))
           w)) = _ =>
        set (attempt := m); set (handler := h); set (fin := f)
    end.
    unfold App.bind at 1 2 3. simpl.
    set (w1 := {| App.react := _; App.sent := App.sent w |}).
    assert (Hbody : App.sent (fst (attempt w1)) = App.sent w ++ [req]).
    { unfold attempt, App.bind at 1, App.fetch. fold req.
      destruct (net req) as [e|r]; [done|].
      set (w2 := {| App.react := App.react w1;
                    App.sent := App.sent w1 ++ [req] |}).
      change (App.sent w ++ [req]) with (App.sent w2).
      match goal with
      | |- App.sent (fst (?m w2)) = _ => assert (Hq : App.quiet m)
      end.
      { apply quiet_bind; [|intros _; apply quiet_read_loop].
        apply quiet_if; [|auto with quiet].
        unfold App.response_json. auto 6 with quiet. }
      apply Hq. }
    unfold App.try_finally, App.try_catch.
    destruct (attempt w1) as [w2 [[]|e]]; simpl in Hbody;
      subst handler fin; simpl; exact Hbody.
  - intros k. by rewrite !lookup_set.
  - intros Ha Hm.
    rewrite (set_absent "api_key" _ fields Ha).
    rewrite set_absent.
    + by rewrite <- app_assoc.
    + by rewrite lookup_app, Hm.
Qed.

(** C8.  With a falsy summary (none loaded) or an empty API key the
    generate action sends nothing and leaves summary and content as they
    were; without a summary it changes nothing at all, and with a summary
    but no key it only sets the error message that asks for the key. *)
Theorem generate_guards (w : App.World) :
  Js.truthy (App.summary (App.react w)) = false \/
  App.apiKey (App.settings (App.react w)) = "" ->
  let w' := fst (App.handleGenerate JSON_parse net API_BASE w) in
  App.sent w' = App.sent w /\
  App.summary (App.react w') = App.summary (App.react w) /\
  App.content (App.react w') = App.content (App.react w) /\
  (Js.truthy (App.summary (App.react w)) = false -> w' = w) /\
  (Js.truthy (App.summary (App.react w)) = true ->
   w' = fst (App.setError
               (Some "Please configure your OpenAI API key in settings first.")
               w)).
Proof.
  intros H w'. subst w'. unfold App.handleGenerate.
  destruct (Js.truthy (App.summary (App.react w))) eqn:Ht; simpl.
  - destruct H as [H|H]; [done|]. rewrite H. simpl. done.
  - done.
Qed.

End Requests.

(** ** The upload zone *)

(** C10.  Selecting a file calls [onUpload] exactly when there is a file
    and its name ends with [.csv], once and with that file; any other
    selection calls it not at all.  The file input and a drop hand their
    first file to the same check. *)
Theorem upload_exactly_for_csv (file : option File) (st : CsvUpload.State) :
  (forall f : File,
     CsvUpload.uploads (snd (CsvUpload.handleFileSelect file st)) = [f] <->
     file = Some f /\ exists stem, name f = stem +:+ ".csv") /\
  (CsvUpload.uploads (snd (CsvUpload.handleFileSelect file st)) = [] <->
   ~ exists f, file = Some f /\ exists stem, name f = stem +:+ ".csv") /\
  (forall files : list File,
     head files = file ->
     snd (CsvUpload.handleChange files st) =
       snd (CsvUpload.handleFileSelect file st) /\
     snd (CsvUpload.handleDrop files st) =
       snd (CsvUpload.handleFileSelect file st)).
Proof.
  unfold CsvUpload.handleChange, CsvUpload.handleDrop,
    CsvUpload.handleFileSelect.
  destruct file as [g|].
  - destruct (JsString.endsWith ".csv" (name g)) eqn:E; simpl.
    + split; [|split].
      * intros f. split.
        -- intros [= ->]. split; [done|]. by apply endsWith_suffix.
        -- by intros [[= ->] _].
      * split; [done|]. intros Hn. exfalso. apply Hn. exists g.
        split; [done|]. by apply endsWith_suffix.
      * intros files ->. simpl. by rewrite E.
    + split; [|split].
      * intros f. split; [done|].
        intros [[= ->] Hs]. apply endsWith_suffix in Hs. congruence.
      * split; [|done].
        intros _ [f [[= <-] Hs]]. apply endsWith_suffix in Hs. congruence.
      * intros files ->. simpl. by rewrite E.
  - simpl. split; [|split].
    + intros f. split; [done|]. by intros [? _].
    + split; [|done]. by intros _ [f [? _]].
    + by intros files ->.
Qed.

(** ** The settings panel *)

Lemma getItem_or_insert (k v d : string) (ls : gmap string string) :
  SettingsPanel.getItem_or k (<[k := v]> ls) d =
  if String.eqb v "" then d else v.
Proof. unfold SettingsPanel.getItem_or. by rewrite lookup_insert_eq. Qed.

Lemma getItem_or_absent (k d : string) (ls : gmap string string) :
  ls !! k = None -> SettingsPanel.getItem_or k ls d = d.
Proof. intros H. unfold SettingsPanel.getItem_or. by rewrite H. Qed.

(** C7 (amended).  Saving and then mounting a fresh panel over the same
    store gives back the saved key, and the saved model when it is not
    the empty string; the parent is told the same pair.  Over a store
    that holds neither item the panel starts with the empty key and the
    model [gpt-5-mini-2025-08-07], and clearing leaves exactly these, in
    the panel and in a panel mounted afterwards.  A model saved as the
    empty string comes back as [gpt-5-mini-2025-08-07], with the saved
    key. *)
Theorem settings_round_trip :
  (forall w : SettingsPanel.World,
     SettingsPanel.model (SettingsPanel.state w) <> "" ->
     let w' := SettingsPanel.mount
                 (SettingsPanel.localStorage (SettingsPanel.handleSave w)) in
     SettingsPanel.apiKey (SettingsPanel.state w') =
       SettingsPanel.apiKey (SettingsPanel.state w) /\
     SettingsPanel.model (SettingsPanel.state w') =
       SettingsPanel.model (SettingsPanel.state w) /\
     SettingsPanel.notified w' =
       [{| App.apiKey := SettingsPanel.apiKey (SettingsPanel.state w);
           App.model := SettingsPanel.model (SettingsPanel.state w) |}]) /\
  (forall ls : gmap string string,
     ls !! "openai_api_key" = None ->
     ls !! "openai_model" = None ->
     SettingsPanel.apiKey (SettingsPanel.state (SettingsPanel.mount ls)) = "" /\
     SettingsPanel.model (SettingsPanel.state (SettingsPanel.mount ls)) =
       "gpt-5-mini-2025-08-07") /\
  (forall w : SettingsPanel.World,
     let w' := SettingsPanel.handleClear w in
     let w'' := SettingsPanel.mount (SettingsPanel.localStorage w') in
     SettingsPanel.apiKey (SettingsPanel.state w') = "" /\
     SettingsPanel.model (SettingsPanel.state w') = "gpt-5-mini-2025-08-07" /\
     SettingsPanel.apiKey (SettingsPanel.state w'') = "" /\
     SettingsPanel.model (SettingsPanel.state w'') = "gpt-5-mini-2025-08-07") /\
  (forall w : SettingsPanel.World,
     SettingsPanel.model (SettingsPanel.state w) = "" ->
     let w' := SettingsPanel.mount
                 (SettingsPanel.localStorage (SettingsPanel.handleSave w)) in
     SettingsPanel.apiKey (SettingsPanel.state w') =
       SettingsPanel.apiKey (SettingsPanel.state w) /\
     SettingsPanel.model (SettingsPanel.state w') = "gpt-5-mini-2025-08-07" /\
     SettingsPanel.notified w' =
       [{| App.apiKey := SettingsPanel.apiKey (SettingsPanel.state w);
           App.model := "gpt-5-mini-2025-08-07" |}]).
Proof.
  split; [|split; [|split]].
  - intros w Hm w'. subst w'.
    unfold SettingsPanel.mount, SettingsPanel.on_mount,
      SettingsPanel.handleSave.
    cbn [SettingsPanel.state SettingsPanel.localStorage
         SettingsPanel.notified SettingsPanel.apiKey SettingsPanel.model].
    rewrite getItem_or_insert.
    rewrite insert_insert_ne by done.
    rewrite getItem_or_insert.
    destruct (String.eqb_spec (SettingsPanel.model (SettingsPanel.state w)) "")
      as [E|_]; [done|].
    by destruct (String.eqb_spec
                   (SettingsPanel.apiKey (SettingsPanel.state w)) "")
      as [->|_].
  - intros ls Hk Hm.
    unfold SettingsPanel.mount, SettingsPanel.on_mount.
    cbn [SettingsPanel.state SettingsPanel.localStorage
         SettingsPanel.apiKey SettingsPanel.model].
    by rewrite !getItem_or_absent.
  - intros w w' w''. subst w' w''.
    unfold SettingsPanel.mount, SettingsPanel.on_mount,
      SettingsPanel.handleClear.
    cbn [SettingsPanel.state SettingsPanel.localStorage
         SettingsPanel.apiKey SettingsPanel.model].
    rewrite !getItem_or_absent; [done| |].
    + by rewrite lookup_delete_eq.
    + rewrite lookup_delete_ne by done. by rewrite lookup_delete_eq.
  - intros w Hm w'. subst w'.
    unfold SettingsPanel.mount, SettingsPanel.on_mount,
      SettingsPanel.handleSave.
    cbn [SettingsPanel.state SettingsPanel.localStorage
         SettingsPanel.notified SettingsPanel.apiKey SettingsPanel.model].
    rewrite getItem_or_insert.
    rewrite insert_insert_ne by done.
    rewrite getItem_or_insert.
    rewrite Hm. simpl.
    by destruct (String.eqb_spec
                   (SettingsPanel.apiKey (SettingsPanel.state w)) "")
      as [->|_].
Qed.

(** ** The server's event stream *)

Section EventStream.

Variable parse_validate :
  string -> Pipeline.GeneratedContent + Pipeline.failure.
Variable describe : Pipeline.failure -> string.
Variable throttle : nat -> bool.

(** After the first token the loop reports character counts only. *)
Lemma token_events_counts (toks : list string) (seen : nat) (acc : string) :
  exists counts : list nat,
    fst (Pipeline.token_events throttle (S seen) acc toks) =
    map (fun n => Pipeline.status (Pipeline.streaming n)) counts.
Proof.
  revert seen acc. induction toks as [|t r IH]; intros seen acc.
  - by exists [].
  - cbn [Pipeline.token_events].
    destruct (IH (S seen) (acc +:+ t)) as [counts Hc].
    destruct (Pipeline.token_events throttle (S (S seen)) (acc +:+ t) r)
      as [later raw].
    simpl in Hc. subst later.
    destruct (throttle (S seen)).
    + by exists (String.length (acc +:+ t) :: counts).
    + by exists counts.
Qed.

Lemma counts_then_end_in_order (counts : list nat) (finish : bool) :
  Pipeline.in_order
    (map Pipeline.streaming counts ++
     (if finish then [Pipeline.processing] else [])).
Proof.
  induction counts as [|n ns IH]; simpl.
  - destruct finish; repeat constructor.
  - constructor; [exact IH|].
    clear IH. induction ns as [|m ms IH]; simpl.
    + destruct finish; repeat constructor.
    + constructor; [simpl; lia|exact IH].
Qed.

Lemma stream_stages_in_order (started : bool) (counts : list nat)
    (finish : bool) :
  Pipeline.in_order
    (Pipeline.connecting ::
     (if started then Pipeline.generating :: map Pipeline.streaming counts
      else []) ++
     (if finish then [Pipeline.processing] else [])).
Proof.
  constructor.
  - destruct started; simpl.
    + constructor; [apply counts_then_end_in_order|].
      induction counts as [|m ms IH]; simpl.
      * destruct finish; repeat constructor.
      * constructor; [simpl; lia|exact IH].
    + destruct finish; repeat constructor.
  - match goal with |- Forall _ ?l => induction l as [|s l' IH] end.
    + constructor.
    + constructor; [simpl; lia|exact IH].
Qed.

Lemma token_events_shape (toks : list string) :
  exists (started : bool) (counts : list nat) (raw : string),
    Pipeline.token_events throttle 0 "" toks =
    (map Pipeline.status
       (if started
        then Pipeline.generating :: map Pipeline.streaming counts
        else []), raw).
Proof.
  destruct toks as [|t r].
  - by exists false, [], "".
  - cbn [Pipeline.token_events].
    destruct (token_events_counts r 0 ("" +:+ t)) as [counts Hc].
    destruct (Pipeline.token_events throttle 1 ("" +:+ t) r)
      as [later raw].
    simpl in Hc. subst later.
    exists true, counts, raw. simpl. by rewrite map_map.
Qed.

(** The events of the first [k] tokens open the events of all of them. *)
Lemma token_events_firstn (k : nat) (toks : list string) (seen : nat)
    (acc : string) :
  exists rest : list Pipeline.StreamEvent,
    fst (Pipeline.token_events throttle seen acc toks) =
    fst (Pipeline.token_events throttle seen acc (firstn k toks)) ++ rest.
Proof.
  revert k seen acc. induction toks as [|t r IH]; intros k seen acc.
  - exists []. by destruct k.
  - destruct k as [|k].
    + by eexists.
    + cbn [firstn Pipeline.token_events].
      destruct (IH k (S seen) (acc +:+ t)) as [rest Hrest].
      destruct (Pipeline.token_events throttle (S seen) (acc +:+ t) r)
        as [later raw].
      destruct (Pipeline.token_events throttle (S seen) (acc +:+ t)
                  (firstn k r)) as [later' raw'].
      simpl in Hrest. subst later. exists rest. simpl.
      by rewrite app_assoc.
Qed.

Lemma no_terminal_among_stages (stages : list Pipeline.stage) :
  List.filter Pipeline.is_terminal (map Pipeline.status stages) = [].
Proof. induction stages as [|s l IH]; [done|exact IH]. Qed.

(** C6 (amended).  The event stream of a request the client stays with to
    the end is a run of stage events in pipeline order followed by one
    terminal event, which is the last event and the only terminal one.
    The event stream of a request the client disconnects from is a run
    of stage events in pipeline order without any terminal event, and it
    opens the stream the request would have had with the client
    staying. *)
Theorem one_terminal_event_last (u : Pipeline.upstream) :
  (Pipeline.abandoned u = None ->
   exists (stages : list Pipeline.stage) (t : Pipeline.StreamEvent),
     Pipeline.event_stream parse_validate describe throttle u =
       map Pipeline.status stages ++ [t] /\
     Pipeline.is_terminal t = true /\
     Pipeline.in_order stages /\
     List.filter Pipeline.is_terminal
       (Pipeline.event_stream parse_validate describe throttle u) = [t]) /\
  (forall k : nat,
     Pipeline.abandoned u = Some k ->
     exists (stages : list Pipeline.stage)
            (unsent : list Pipeline.StreamEvent),
       Pipeline.event_stream parse_validate describe throttle u =
         map Pipeline.status stages /\
       Pipeline.in_order stages /\
       List.filter Pipeline.is_terminal
         (Pipeline.event_stream parse_validate describe throttle u) = [] /\
       Pipeline.event_stream parse_validate describe throttle
         (Pipeline.attended u) =
         Pipeline.event_stream parse_validate describe throttle u ++ unsent).
Proof.
  split.
  - intros Hstay.
    assert (Hno : forall stages t,
               Pipeline.is_terminal t = true ->
               List.filter Pipeline.is_terminal
                 (map Pipeline.status stages ++ [t]) = [t]).
    { intros stages t Ht. rewrite List.filter_app, no_terminal_among_stages.
      simpl. by rewrite Ht. }
    destruct (token_events_shape (Pipeline.tokens u))
      as (started & counts & raw & Hshape).
    unfold Pipeline.event_stream. rewrite Hstay, Hshape.
    set (progress := if started
                     then Pipeline.generating :: map Pipeline.streaming counts
                     else []).
    destruct (Pipeline.ending u) as [f|] eqn:He.
    + exists (Pipeline.connecting :: progress), (Pipeline.error (describe f)).
      assert (Heq : Pipeline.status Pipeline.connecting ::
                    map Pipeline.status progress ++
                    Pipeline.closing parse_validate describe raw (Some f) =
                    map Pipeline.status (Pipeline.connecting :: progress) ++
                    [Pipeline.error (describe f)]) by done.
      rewrite Heq. split; [done|]. split; [done|]. split.
      * pose proof (stream_stages_in_order started counts false) as Hs.
        simpl in Hs. by rewrite app_nil_r in Hs.
      * by apply Hno.
    + set (t := match parse_validate raw with
                | inl c => Pipeline.data c
                | inr f => Pipeline.error (describe f)
                end).
      assert (Ht : Pipeline.is_terminal t = true).
      { unfold t. by destruct (parse_validate raw). }
      exists (Pipeline.connecting :: progress ++ [Pipeline.processing]), t.
      assert (Heq : Pipeline.status Pipeline.connecting ::
                    map Pipeline.status progress ++
                    Pipeline.closing parse_validate describe raw None =
                    map Pipeline.status
                      (Pipeline.connecting ::
                       progress ++ [Pipeline.processing])
                    ++ [t]).
      { simpl. rewrite map_app. simpl. by rewrite <- app_assoc. }
      rewrite Heq. split; [done|]. split; [done|]. split.
      * apply (stream_stages_in_order started counts true).
      * by apply Hno.
  - intros k Hleft.
    destruct (token_events_shape (firstn k (Pipeline.tokens u)))
      as (started & counts & raw & Hshape).
    destruct (token_events_firstn k (Pipeline.tokens u) 0 "")
      as [rest Hrest].
    unfold Pipeline.event_stream. rewrite Hleft. simpl.
    rewrite Hshape in *. simpl in *.
    set (progress := if started
                     then Pipeline.generating :: map Pipeline.streaming counts
                     else []) in *.
    destruct (Pipeline.token_events throttle 0 "" (Pipeline.tokens u))
      as [full raw'] eqn:Hfull. simpl in Hrest. subst full.
    exists (Pipeline.connecting :: progress),
           (rest ++ Pipeline.closing parse_validate describe raw'
                      (Pipeline.ending u)).
    split; [done|]. split; [|split].
    + pose proof (stream_stages_in_order started counts false) as Hs.
      simpl in Hs. by rewrite app_nil_r in Hs.
    + apply (no_terminal_among_stages (Pipeline.connecting :: progress)).
    + simpl. by rewrite <- app_assoc.
Qed.

End EventStream.

(** * The properties at concrete inputs *)

Section Concrete.

Import Examples.

(** C3, counterexample.  For the body [{detail: empty string}] of a
    response that is not ok, the displayed error is the fallback text,
    not the detail. *)
Lemma empty_detail_not_displayed :
  let resp := refuses 400 (Json.dq "{'detail':''}") in
  let w' := fst (App.handleUpload Json.parse resp base csv_file fresh) in
  Json.parse (Json.dq "{'detail':''}") = Normal (JObj [("detail", JStr "")]) /\
  App.error (App.react w') = Some "Failed to upload CSV" /\
  App.error (App.react w') <> Some "".
Proof. vm_compute. repeat split; discriminate. Qed.

(** C7, counterexample.  A saved empty model comes back as the default
    model. *)
Lemma empty_model_not_restored :
  let w := typed "sk-test" "" in
  let w' := SettingsPanel.mount
              (SettingsPanel.localStorage (SettingsPanel.handleSave w)) in
  SettingsPanel.model (SettingsPanel.state w) = "" /\
  SettingsPanel.localStorage (SettingsPanel.handleSave w) !! "openai_model"
    = Some "" /\
  SettingsPanel.model (SettingsPanel.state w') = "gpt-5-mini-2025-08-07" /\
  SettingsPanel.model (SettingsPanel.state w') <>
    SettingsPanel.model (SettingsPanel.state w).
Proof.
  simpl. unfold SettingsPanel.mount, SettingsPanel.on_mount. simpl.
  rewrite lookup_insert_eq, getItem_or_insert. simpl.
  repeat split; discriminate.
Qed.


(** A refused upload shows the server's detail (C3). *)
Lemma refused_upload_shows_detail :
  let net := refuses 400 (Json.dq "{'detail':'Unsupported CSV format'}") in
  let w' := fst (App.handleUpload Json.parse net base csv_file fresh) in
  App.error (App.react w') = Some "Unsupported CSV format" /\
  App.summary (App.react w') = JNull.
Proof.
  apply (proj1 (upload_outcomes Json.parse
                  (refuses 400 (Json.dq "{'detail':'Unsupported CSV format'}"))
                  base csv_file fresh
                  {| ok := false; status := 400;
                     chunks := [Json.dq "{'detail':'Unsupported CSV format'}"] |}
                  eq_refl)
           [("detail", JStr "Unsupported CSV format")]
           "Unsupported CSV format");
    [reflexivity | vm_compute; reflexivity | reflexivity | discriminate].
Defined.

(** The request of the examples carries the summary and the settings
    (C4). *)
Lemma ready_request_body :
  exists payload : list (string * jsval),
    App.sent (fst (App.handleGenerate Json.parse (streams []) base ready)) =
      [{| url := "http://localhost:8000/generate-content-stream";
          method := "POST";
          headers := [("Content-Type", "application/json")];
          body := JsonBody (JObj payload) |}] /\
    payload = summary_fields ++
              [("api_key", JStr "sk-test");
               ("model", JStr "gpt-5-mini-2025-08-07")].
Proof.
  destruct (generate_request_body Json.parse (streams []) base ready
              summary_fields eq_refl) as (payload & Hsent & _ & Hshape).
  - discriminate.
  - exists payload. split; [exact Hsent|]. apply Hshape; reflexivity.
Defined.

(** A saved key and model come back on the next mount (C7). *)
Lemma saved_settings_restored :
  let w := typed "sk-test" "gpt-4o" in
  let w' := SettingsPanel.mount
              (SettingsPanel.localStorage (SettingsPanel.handleSave w)) in
  SettingsPanel.apiKey (SettingsPanel.state w') = "sk-test" /\
  SettingsPanel.model (SettingsPanel.state w') = "gpt-4o" /\
  SettingsPanel.notified w' =
    [{| App.apiKey := "sk-test"; App.model := "gpt-4o" |}].
Proof.
  apply (proj1 settings_round_trip (typed "sk-test" "gpt-4o")).
  simpl. discriminate.
Defined.

(** Without a summary the generate action does nothing (C8). *)
Lemma generate_without_summary :
  fst (App.handleGenerate Json.parse (streams [complete_line]) base fresh) =
  fresh.
Proof.
  apply (generate_guards Json.parse (streams [complete_line]) base fresh);
    [left|]; reflexivity.
Defined.


(** A file named [sales.csv] is uploaded, once (C10). *)
Lemma csv_file_uploaded :
  CsvUpload.uploads
    (snd (CsvUpload.handleFileSelect (Some csv_file) CsvUpload.initial)) =
  [csv_file].
Proof.
  apply (proj1 (upload_exactly_for_csv (Some csv_file) CsvUpload.initial)).
  split; [reflexivity|]. exists "sales". reflexivity.
Defined.

End Concrete.

(** * Further properties of the handlers *)

(** ** The stream loop, line by line *)

Section StreamLines.

Variable JSON_parse : parser.

Lemma only_output_changed_refl (w : App.World) : App.only_output_changed w w.
Proof. by repeat split. Qed.

Lemma only_output_changed_trans (w1 w2 w3 : App.World) :
  App.only_output_changed w1 w2 -> App.only_output_changed w2 w3 ->
  App.only_output_changed w1 w3.
Proof.
  unfold App.only_output_changed.
  intros (?&?&?&?&?) (?&?&?&?&?). repeat split; congruence.
Qed.

Lemma status_dispatch_frame (data : jsval) (w : App.World) :
  App.only_output_changed w (fst (App.status_dispatch data w)).
Proof.
  unfold App.status_dispatch, App.bind, App.lift.
  destruct (Js.get data "status") as [status|e]; [|by repeat split].
  repeat (match goal with
          | |- context [if ?b then _ else _] => destruct b
          end; try by repeat split).
  - destruct (Js.get data "partial"); by repeat split.
  - destruct (Js.get data "data"); by repeat split.
Qed.

(** What a line does, by the outcome of its parse. *)
Lemma process_line_cases (line : string) (w : App.World) :
  App.process_line JSON_parse line w =
  match JSON_parse (JsString.slice 6 line) with
  | Throw e =>
      if String.eqb (message e) "Unexpected end of JSON input"
      then (w, Normal tt) else (w, Throw e)
  | Normal JUndefined =>
      (w, Throw (new_Error_msg
                   "Cannot read properties of undefined (reading 'error')"))
  | Normal JNull =>
      (w, Throw (new_Error_msg
                   "Cannot read properties of null (reading 'error')"))
  | Normal (JObj props) =>
      if Js.truthy (Js.prop props "error") then
        if String.eqb (Js.ToString (Js.prop props "error"))
                      "Unexpected end of JSON input"
        then (w, Normal tt)
        else (w, Throw (Js.new_Error (Js.prop props "error")))
      else App.status_dispatch (JObj props) w
  | Normal _ => (w, Normal tt)
  end.
Proof.
  unfold App.process_line, App.try_catch, App.bind, App.lift.
  destruct (JSON_parse (JsString.slice 6 line)) as [data|e].
  - destruct data as [| |b|n|s|items|props]; try reflexivity.
    simpl. destruct (Js.truthy (Js.prop props "error")) eqn:He; simpl.
    + by destruct (String.eqb _ _).
    + pose proof (status_dispatch_normal props w) as Hn.
      destruct (App.status_dispatch (JObj props) w) as [w' c].
      simpl in Hn. by subst c.
  - simpl. by destruct (String.eqb _ _).
Qed.

(** When a line lets the loop go on, and what it leaves when it does
    not. *)
Lemma process_line_outcome (line : string) (w : App.World) :
  (snd (App.process_line JSON_parse line w) = Normal tt <->
   App.continues JSON_parse line = true) /\
  (forall e : Error,
     snd (App.process_line JSON_parse line w) = Throw e ->
     fst (App.process_line JSON_parse line w) = w /\
     message e <> "Unexpected end of JSON input").
Proof.
  rewrite process_line_cases. unfold App.continues.
  destruct (JSON_parse (JsString.slice 6 line)) as [data|e0].
  - destruct data as [| |b|n|s|items|props]; simpl;
      try (split; [split; [done|done]|by intros e [=]]);
      try (split; [split; [by intros [=]|done]|
                   intros e [= <-]; split; [done|by intros [=]]]).
    destruct (Js.truthy (Js.prop props "error")) eqn:He; simpl.
    + destruct (String.eqb_spec (Js.ToString (Js.prop props "error"))
                  "Unexpected end of JSON input") as [E|E]; simpl.
      * split; [done|by intros e [=]].
      * split; [split; [by intros [=]|done]|].
        intros e [= <-]. split; [done|exact E].
    + pose proof (status_dispatch_normal props w) as Hn.
      split; [by rewrite Hn|]. intros e He'. congruence.
  - destruct (String.eqb_spec (message e0) "Unexpected end of JSON input")
      as [E|E]; simpl.
    + split; [done|by intros e [=]].
    + split; [split; [by intros [=]|done]|].
      intros e [= <-]. split; [done|exact E].
Qed.

Lemma process_line_frame (line : string) (w : App.World) :
  App.only_output_changed w (fst (App.process_line JSON_parse line w)).
Proof.
  rewrite process_line_cases.
  destruct (JSON_parse (JsString.slice 6 line)) as [data|e].
  - destruct data as [| |b|n|s|items|props];
      try apply only_output_changed_refl.
    destruct (Js.truthy _).
    + destruct (String.eqb _ _); apply only_output_changed_refl.
    + apply status_dispatch_frame.
  - destruct (String.eqb _ _); apply only_output_changed_refl.
Qed.

Lemma for_lines_frame (lines : list string) (w : App.World) :
  App.only_output_changed w (fst (App.for_lines JSON_parse lines w)).
Proof.
  revert w. induction lines as [|l ls IH]; intros w; cbn [App.for_lines].
  - apply only_output_changed_refl.
  - unfold App.bind. pose proof (process_line_frame l w) as Hl.
    destruct (App.process_line JSON_parse l w) as [w1 [[]|e]]; simpl in Hl.
    + eapply only_output_changed_trans; [exact Hl|apply IH].
    + exact Hl.
Qed.

Lemma for_lines_app (l1 l2 : list string) (w : App.World) :
  App.for_lines JSON_parse (l1 ++ l2) w =
  App.bind (App.for_lines JSON_parse l1)
           (fun _ => App.for_lines JSON_parse l2) w.
Proof.
  revert w. induction l1 as [|l ls IH]; intros w.
  - reflexivity.
  - cbn [app App.for_lines]. unfold App.bind in *.
    destruct (App.process_line JSON_parse l w) as [w1 [[]|e]]; [|done].
    apply IH.
Qed.

Lemma read_loop_flat (chunks : list string) (w : App.World) :
  App.read_loop JSON_parse chunks w =
  App.for_lines JSON_parse (flat_map App.data_lines chunks) w.
Proof.
  revert w. induction chunks as [|c cs IH]; intros w.
  - reflexivity.
  - cbn [App.read_loop flat_map]. rewrite for_lines_app.
    unfold App.bind.
    destruct (App.for_lines JSON_parse (App.data_lines c) w)
      as [w1 [[]|e]]; [apply IH|done].
Qed.

Lemma read_loop_frame (chunks : list string) (w : App.World) :
  App.only_output_changed w (fst (App.read_loop JSON_parse chunks w)).
Proof. rewrite read_loop_flat. apply for_lines_frame. Qed.

(** X1.  A line lets the loop go on exactly when [continues] holds of it;
    a line that ends the loop leaves the state as it was, and the message
    it throws is not the one the inner [catch] lets pass. *)
Theorem line_ends_loop_iff (line : string) (w : App.World) :
  (snd (App.process_line JSON_parse line w) = Normal tt <->
   App.continues JSON_parse line = true) /\
  (forall e : Error,
     snd (App.process_line JSON_parse line w) = Throw e ->
     fst (App.process_line JSON_parse line w) = w /\
     message e <> "Unexpected end of JSON input").
Proof. apply process_line_outcome. Qed.

(** X2.  The loop over the chunks runs the loop body on the lines that
    begin with [data: ], chunk after chunk in order: reading the chunks is
    the same as processing the list of all their data lines, so two
    deliveries with the same data lines act alike. *)
Theorem read_loop_is_for_lines (chunks : list string) (w : App.World) :
  App.read_loop JSON_parse chunks w =
  App.for_lines JSON_parse (flat_map App.data_lines chunks) w.
Proof. apply read_loop_flat. Qed.

(** X3.  Whatever the server streams, the loop changes nothing but the
    content and the loading status: the summary, the settings, the
    displayed error, the loading flag and the requests sent are as
    before. *)
Theorem read_loop_changes_output_only (chunks : list string)
    (w : App.World) :
  App.only_output_changed w (fst (App.read_loop JSON_parse chunks w)).
Proof. apply read_loop_frame. Qed.

End StreamLines.

(** ** Chunks cut at line ends *)

Lemma split_nonempty (sep : ascii) (s : string) : JsString.split sep s <> [].
Proof.
  destruct s as [|c r]; simpl; [done|].
  destruct (Ascii.eqb c sep); [done|].
  by destruct (JsString.split sep r).
Qed.

Lemma split_app_sep (sep : ascii) (a b : string) :
  JsString.split sep (a +:+ String sep b) =
  JsString.split sep a ++ JsString.split sep b.
Proof.
  induction a as [|c r IH].
  - change ("" +:+ String sep b) with (String sep b).
    cbn [JsString.split]. by rewrite Ascii.eqb_refl.
  - change (String c r +:+ String sep b) with (String c (r +:+ String sep b)).
    cbn [JsString.split]. rewrite IH.
    destruct (Ascii.eqb c sep); [done|].
    pose proof (split_nonempty sep r) as Hne.
    by destruct (JsString.split sep r).
Qed.

Lemma data_lines_app_newline (a b : string) :
  App.data_lines (a +:+ String JsString.newline b) =
  App.data_lines a ++ App.data_lines b.
Proof.
  unfold App.data_lines. by rewrite split_app_sep, List.filter_app.
Qed.

Lemma string_app_assoc (a b c : string) : (a +:+ b) +:+ c = a +:+ (b +:+ c).
Proof.
  induction a as [|x a IH]; [done|].
  change (String x ((a +:+ b) +:+ c) = String x (a +:+ (b +:+ c))).
  by rewrite IH.
Qed.

Lemma data_lines_line_end (a b : string) :
  App.data_lines ((a +:+ String JsString.newline EmptyString) +:+ b) =
  App.data_lines (a +:+ String JsString.newline EmptyString) ++
  App.data_lines b.
Proof.
  rewrite string_app_assoc.
  change (String JsString.newline "" +:+ b) with (String JsString.newline b).
  rewrite !data_lines_app_newline.
  change (App.data_lines "") with (@nil string).
  by rewrite app_nil_r.
Qed.

(** X4.  Delivery in chunks that each end at a line end is the same as
    delivery in one piece: the loop acts on such chunks exactly as on
    their concatenation. *)
Theorem line_aligned_chunks_agree (JSON_parse : parser)
    (chunks : list string) (w : App.World) :
  Forall (fun c => exists a, c = a +:+ String JsString.newline EmptyString)
         chunks ->
  App.read_loop JSON_parse chunks w =
  App.read_loop JSON_parse [JsString.concat chunks] w.
Proof.
  intros Hall. rewrite !read_loop_flat. f_equal.
  cbn [flat_map]. rewrite app_nil_r.
  induction Hall as [|c cs [a ->] _ IH]; [done|].
  cbn [flat_map JsString.concat fold_right].
  fold (JsString.concat cs).
  by rewrite data_lines_line_end, IH.
Qed.

(** ** The generate action against any server *)

Section GenerateRuns.

Variable JSON_parse : parser.
Variable net : request -> fetch_result.
Variable API_BASE : string.

(** What [handleGenerate] does after its request is out, by what the
    server answers. *)
Lemma handleGenerate_started (w : App.World) :
  Js.truthy (App.summary (App.react w)) = true ->
  App.apiKey (App.settings (App.react w)) <> "" ->
  App.handleGenerate JSON_parse net API_BASE w =
  App.generate_guarded
    (match net (App.generate_request API_BASE (App.summary (App.react w))
                  (App.settings (App.react w))) with
     | Rejected e => App.throw e
     | Responded r =>
         if ok r then App.read_loop JSON_parse (chunks r)
         else
           App.bind (App.response_json JSON_parse r)
             (fun data =>
                App.bind (App.lift (Js.get data "detail"))
                  (fun detail =>
                     App.throw
                       (Js.new_Error
                          (Js.or detail (JStr "Failed to generate content")))))
     end)
    (App.started API_BASE w).
Proof.
  intros Hs Hk. unfold App.handleGenerate. rewrite Hs. simpl.
  destruct (String.eqb_spec (App.apiKey (App.settings (App.react w))) "")
    as [E|_]; [done|].
  unfold App.bind at 1 2 3. simpl.
  unfold App.generate_guarded, App.try_finally, App.try_catch.
  unfold App.bind at 2, App.fetch. simpl. unfold App.started.
  destruct (net _) as [e|r]; simpl; [reflexivity|].
  unfold App.bind, App.response_json, App.lift, App.throw, App.ret.
  destruct (ok r); simpl; [reflexivity|].
  destruct (JSON_parse (App.response_text r)) as [data|e]; simpl;
    [|reflexivity].
  destruct (Js.get data "detail"); reflexivity.
Qed.

Lemma generate_guarded_result (m : App.M unit) (w : App.World) :
  App.generate_guarded m w =
  (let '(w1, c) := m w in
   {| App.react :=
        {| App.summary := App.summary (App.react w1);
           App.content := App.content (App.react w1);
           App.loading := false; App.loadingStatus := "";
           App.error := match c with
                        | Throw e => Some (message e)
                        | Normal _ => App.error (App.react w1)
                        end;
           App.settings := App.settings (App.react w1) |};
      App.sent := App.sent w1 |}, Normal tt).
Proof.
  unfold App.generate_guarded, App.try_finally, App.try_catch.
  by destruct (m w) as [w1 [[]|e]].
Qed.

Lemma for_lines_all_continue (lines : list string) (w : App.World) :
  forallb (App.continues JSON_parse) lines = true ->
  snd (App.for_lines JSON_parse lines w) = Normal tt.
Proof.
  revert w. induction lines as [|l ls IH]; intros w H; [done|].
  simpl in H. apply andb_true_iff in H as [Hl Hls].
  cbn [App.for_lines]. unfold App.bind.
  pose proof (proj1 (process_line_outcome JSON_parse l w)) as Hc.
  apply Hc in Hl.
  destruct (App.process_line JSON_parse l w) as [w1 [[]|e]];
    simpl in Hl; [by apply IH|done].
Qed.

Lemma for_lines_first_stop (before after : list string) (line : string)
    (w : App.World) :
  forallb (App.continues JSON_parse) before = true ->
  App.continues JSON_parse line = false ->
  exists e : Error,
    App.for_lines JSON_parse (before ++ line :: after) w =
      (fst (App.for_lines JSON_parse before w), Throw e) /\
    snd (App.process_line JSON_parse line
           (fst (App.for_lines JSON_parse before w))) = Throw e.
Proof.
  intros Hb Hl. rewrite for_lines_app. unfold App.bind at 1.
  pose proof (for_lines_all_continue before w Hb) as Hn.
  destruct (App.for_lines JSON_parse before w) as [w1 c].
  simpl in Hn. subst c. simpl.
  cbn [App.for_lines]. unfold App.bind.
  destruct (process_line_outcome JSON_parse line w1) as [Hiff Hthrow].
  destruct (App.process_line JSON_parse line w1) as [w2 [[]|e]] eqn:E.
  - simpl in Hiff. rewrite (proj1 Hiff eq_refl) in Hl. done.
  - destruct (Hthrow e eq_refl) as [Hw _]. simpl in Hw. subst w2.
    by exists e.
Qed.


(** X5.  Once the generate action goes ahead it ends, whatever the
    server does, with the loading flag down and the loading status
    empty, with the summary and the settings as they were, with exactly
    one request sent, and without throwing. *)
Theorem generate_always_settles (w : App.World) :
  Js.truthy (App.summary (App.react w)) = true ->
  App.apiKey (App.settings (App.react w)) <> "" ->
  let r := App.handleGenerate JSON_parse net API_BASE w in
  snd r = Normal tt /\
  App.loading (App.react (fst r)) = false /\
  App.loadingStatus (App.react (fst r)) = "" /\
  App.summary (App.react (fst r)) = App.summary (App.react w) /\
  App.settings (App.react (fst r)) = App.settings (App.react w) /\
  App.sent (fst r) =
    App.sent w ++
    [App.generate_request API_BASE (App.summary (App.react w))
       (App.settings (App.react w))].
Proof.
  intros Hs Hk r. subst r.
  rewrite (handleGenerate_started w Hs Hk), generate_guarded_result.
  match goal with
  | |- context [let '(_, _) := ?m (App.started API_BASE w) in _] =>
      assert (Hf : App.only_output_changed (App.started API_BASE w)
                     (fst (m (App.started API_BASE w))));
      [|destruct (m (App.started API_BASE w)) as [w1 c]]
  end.
  - destruct (net _) as [e|resp]; [apply only_output_changed_refl|].
    destruct (ok resp); [apply read_loop_frame|].
    unfold App.bind, App.response_json, App.lift, App.throw.
    destruct (JSON_parse (App.response_text resp)) as [data|e];
      [|apply only_output_changed_refl].
    destruct (Js.get data "detail"); apply only_output_changed_refl.
  - destruct Hf as (H1 & H2 & H3 & H4 & H5). simpl in *.
    by repeat split.
Qed.


(** X7.  When the data lines of an ok response are lines that let the
    loop go on followed by a last line with status [complete] and no
    truthy [error], the generate action ends with that line's [data] as
    the content and with no error displayed. *)
Theorem stream_ending_in_complete_shows_data (w : App.World)
    (resp : response) (before : list string) (line : string)
    (props : list (string * jsval)) :
  Js.truthy (App.summary (App.react w)) = true ->
  App.apiKey (App.settings (App.react w)) <> "" ->
  net (App.generate_request API_BASE (App.summary (App.react w))
         (App.settings (App.react w))) = Responded resp ->
  ok resp = true ->
  flat_map App.data_lines (chunks resp) = before ++ [line] ->
  forallb (App.continues JSON_parse) before = true ->
  JSON_parse (JsString.slice 6 line) = Normal (JObj props) ->
  Js.truthy (Js.prop props "error") = false ->
  Js.prop props "status" = JStr "complete" ->
  let w' := fst (App.handleGenerate JSON_parse net API_BASE w) in
  App.content (App.react w') = Js.prop props "data" /\
  App.error (App.react w') = None.
Proof.
  intros Hs Hk Hnet Hok Hlines Hb Hp He Hst w'. subst w'.
  rewrite (handleGenerate_started w Hs Hk), Hnet, Hok.
  rewrite generate_guarded_result, read_loop_flat, Hlines.
  assert (Hrun : exists w2,
             App.for_lines JSON_parse (before ++ [line])
               (App.started API_BASE w) = (w2, Normal tt) /\
             App.content (App.react w2) = Js.prop props "data" /\
             App.error (App.react w2) = None).
  { rewrite for_lines_app. unfold App.bind at 1.
    pose proof (for_lines_all_continue before (App.started API_BASE w) Hb)
      as Hn.
    destruct (for_lines_frame JSON_parse before (App.started API_BASE w))
      as (_ & _ & Herr & _).
    destruct (App.for_lines JSON_parse before (App.started API_BASE w))
      as [w1 c]. simpl in Hn, Herr. subst c.
    cbn [App.for_lines]. unfold App.bind at 1.
    rewrite process_line_cases, Hp, He.
    unfold App.status_dispatch, App.bind, App.lift. simpl.
    rewrite Hst. simpl. eexists. split; [reflexivity|]. by split. }
  destruct Hrun as (w2 & -> & Hc & He2). by split.
Qed.

(** X8.  When the lines that let the loop go on are followed by one that
    does not, the generate action ends with the message that line throws
    as the displayed error and with the content the earlier lines left;
    the lines after it play no part. *)
Theorem first_stopping_line_decides (w : App.World) (resp : response)
    (before after : list string) (line : string) :
  Js.truthy (App.summary (App.react w)) = true ->
  App.apiKey (App.settings (App.react w)) <> "" ->
  net (App.generate_request API_BASE (App.summary (App.react w))
         (App.settings (App.react w))) = Responded resp ->
  ok resp = true ->
  flat_map App.data_lines (chunks resp) = before ++ line :: after ->
  forallb (App.continues JSON_parse) before = true ->
  App.continues JSON_parse line = false ->
  let w1 := fst (App.for_lines JSON_parse before (App.started API_BASE w)) in
  let w' := fst (App.handleGenerate JSON_parse net API_BASE w) in
  exists e : Error,
    snd (App.process_line JSON_parse line w1) = Throw e /\
    App.error (App.react w') = Some (message e) /\
    App.content (App.react w') = App.content (App.react w1).
Proof.
  intros Hs Hk Hnet Hok Hlines Hb Hl w1 w'. subst w1 w'.
  rewrite (handleGenerate_started w Hs Hk), Hnet, Hok.
  rewrite generate_guarded_result, read_loop_flat, Hlines.
  destruct (for_lines_first_stop before after line (App.started API_BASE w)
              Hb Hl) as (e & Hrun & Hthrow).
  rewrite Hrun. exists e. by repeat split.
Qed.

(** X9.  When the server answers the generate request with a response
    that is not ok, nothing of the body is read as a stream: the
    displayed error is the body's [detail] when that is a non-empty
    string, [Failed to generate content] when the body is an object
    whose [detail] is falsy, and the parser's message when the body is
    not JSON; the content stays as it was. *)
Theorem refused_generate_shows_detail (w : App.World) (resp : response) :
  Js.truthy (App.summary (App.react w)) = true ->
  App.apiKey (App.settings (App.react w)) <> "" ->
  net (App.generate_request API_BASE (App.summary (App.react w))
         (App.settings (App.react w))) = Responded resp ->
  ok resp = false ->
  let w' := fst (App.handleGenerate JSON_parse net API_BASE w) in
  App.content (App.react w') = App.content (App.react w) /\
  (forall (props : list (string * jsval)) (s : string),
     JSON_parse (App.response_text resp) = Normal (JObj props) ->
     Js.prop props "detail" = JStr s -> s <> "" ->
     App.error (App.react w') = Some s) /\
  (forall props : list (string * jsval),
     JSON_parse (App.response_text resp) = Normal (JObj props) ->
     Js.truthy (Js.prop props "detail") = false ->
     App.error (App.react w') = Some "Failed to generate content") /\
  (forall e : Error,
     JSON_parse (App.response_text resp) = Throw e ->
     App.error (App.react w') = Some (message e)).
Proof.
  intros Hs Hk Hnet Hok w'. subst w'.
  rewrite (handleGenerate_started w Hs Hk), Hnet, Hok.
  rewrite generate_guarded_result.
  unfold App.bind, App.response_json, App.lift, App.throw.
  destruct (JSON_parse (App.response_text resp)) as [data|e0] eqn:Hp.
  - destruct (Js.get data "detail") as [detail|e1] eqn:Hd; simpl.
    + split; [done|]. split; [|split]; [| |done].
      * intros props s [= ->] Hdet Hne. simpl in Hd.
        injection Hd as <-. rewrite Hdet. unfold Js.or. simpl.
        by destruct (String.eqb_spec s "").
      * intros props [= ->] Hdet. simpl in Hd. injection Hd as <-.
        unfold Js.or. by rewrite Hdet.
    + split; [done|]. split; [|split]; [| |done].
      * intros props s [= ->]. done.
      * intros props [= ->]. done.
  - simpl. split; [done|]. split; [done|]. split; [done|].
    by intros e [= ->].
Qed.

(** X10.  When the generate request fails on the network, the rejection's
    message is the displayed error and the content stays as it was. *)
Theorem rejected_generate_shows_message (w : App.World) (e : Error) :
  Js.truthy (App.summary (App.react w)) = true ->
  App.apiKey (App.settings (App.react w)) <> "" ->
  net (App.generate_request API_BASE (App.summary (App.react w))
         (App.settings (App.react w))) = Rejected e ->
  let w' := fst (App.handleGenerate JSON_parse net API_BASE w) in
  App.error (App.react w') = Some (message e) /\
  App.content (App.react w') = App.content (App.react w).
Proof.
  intros Hs Hk Hnet w'. subst w'.
  rewrite (handleGenerate_started w Hs Hk), Hnet.
  by rewrite generate_guarded_result.
Qed.

End GenerateRuns.

(** ** The complete line and the error line in the stream *)

Section StreamEvents.

Variable JSON_parse : parser.

(** C1 (amended).  A line the loop processes whose payload is an object
    with status [complete] and no truthy [error] sets the content to the
    payload's [data] and clears the loading status; a line changes the
    content only if its payload has status [complete], to that payload's
    [data]; and such a line among the data lines of the chunks (the lines
    of a chunk that begin with [data: ]) is processed whenever every data
    line before it lets the loop go on, the loop going on after it with
    the content set and the status cleared. *)
Theorem complete_event_sets_content :
  (forall (line : string) (w : App.World) (props : list (string * jsval)),
     JSON_parse (JsString.slice 6 line) = Normal (JObj props) ->
     Js.truthy (Js.prop props "error") = false ->
     Js.prop props "status" = JStr "complete" ->
     App.process_line JSON_parse line w =
     App.bind (App.setContent (Js.prop props "data"))
              (fun _ => App.setLoadingStatus "") w) /\
  (forall (line : string) (w : App.World),
     let w' := fst (App.process_line JSON_parse line w) in
     App.content (App.react w') = App.content (App.react w) \/
     exists props : list (string * jsval),
       JSON_parse (JsString.slice 6 line) = Normal (JObj props) /\
       Js.prop props "status" = JStr "complete" /\
       App.content (App.react w') = Js.prop props "data") /\
  (forall (chunks before after : list string) (line : string)
          (w : App.World) (props : list (string * jsval)),
     flat_map App.data_lines chunks = before ++ line :: after ->
     forallb (App.continues JSON_parse) before = true ->
     JSON_parse (JsString.slice 6 line) = Normal (JObj props) ->
     Js.truthy (Js.prop props "error") = false ->
     Js.prop props "status" = JStr "complete" ->
     App.read_loop JSON_parse chunks w =
     App.for_lines JSON_parse after
       (fst (App.bind (App.setContent (Js.prop props "data"))
                      (fun _ => App.setLoadingStatus "")
                      (fst (App.for_lines JSON_parse before w))))).
Proof.
  assert (Hline : forall line w props,
     JSON_parse (JsString.slice 6 line) = Normal (JObj props) ->
     Js.truthy (Js.prop props "error") = false ->
     Js.prop props "status" = JStr "complete" ->
     App.process_line JSON_parse line w =
     App.bind (App.setContent (Js.prop props "data"))
              (fun _ => App.setLoadingStatus "") w).
  { intros line w props Hp He Hs.
    rewrite (process_line_event JSON_parse line w props Hp He).
    unfold App.status_dispatch, App.bind, App.lift. simpl.
    by rewrite Hs. }
  split; [exact Hline|]. split.
  - intros line w. simpl.
    unfold App.process_line, App.try_catch, App.bind, App.lift.
    destruct (JSON_parse (JsString.slice 6 line)) as [data|e] eqn:Hp.
    + destruct data as [| |b|n|s|items|props]; simpl;
        try (left;
             repeat (match goal with
                     | |- context [if ?b then _ else _] => destruct b
                     end; simpl); reflexivity).
      destruct (Js.truthy (Js.prop props "error")); simpl.
      * left. by destruct (negb _).
      * unfold App.status_dispatch, App.bind, App.lift. simpl.
        destruct (Js.strict_eq_str (Js.prop props "status") "connecting");
          [by left|].
        destruct (Js.strict_eq_str (Js.prop props "status") "generating");
          [by left|].
        destruct (Js.strict_eq_str (Js.prop props "status") "streaming");
          [by left|].
        destruct (Js.strict_eq_str (Js.prop props "status") "processing");
          [by left|].
        destruct (Js.strict_eq_str (Js.prop props "status") "complete")
          eqn:Hc; [|by left].
        right. exists props. apply strict_eq_str_true in Hc. done.
    + left. by destruct (negb _).
  - intros chunks before after line w props Hl Hb Hp He Hs.
    rewrite read_loop_flat, Hl, for_lines_app. unfold App.bind at 1.
    pose proof (for_lines_all_continue JSON_parse before w Hb) as Hn.
    destruct (App.for_lines JSON_parse before w) as [w1 c].
    simpl in Hn. subst c. cbn [App.for_lines fst].
    unfold App.bind at 1. by rewrite (Hline line w1 props Hp He Hs).
Qed.

(** C2 (amended).  A line the loop processes whose payload has a
    non-empty [error] string other than [Unexpected end of JSON input]
    throws that string and leaves the state as it was; whatever lines and
    chunks follow are not processed, and the handler ends with the string
    as the displayed error and the content untouched.  Such a line among
    the data lines of the chunks is processed whenever every data line
    before it lets the loop go on, and the handler then ends with the
    string as the displayed error over the state those lines left. *)
Theorem error_event_ends_stream (line : string) (rest more : list string)
    (w : App.World) (props : list (string * jsval)) (s : string) :
  JSON_parse (JsString.slice 6 line) = Normal (JObj props) ->
  Js.prop props "error" = JStr s ->
  s <> "" ->
  s <> "Unexpected end of JSON input" ->
  let remaining :=
    App.bind (App.for_lines JSON_parse (line :: rest))
             (fun _ => App.read_loop JSON_parse more) in
  App.process_line JSON_parse line w = (w, Throw (new_Error_msg s)) /\
  App.generate_guarded remaining w =
    App.bind (App.setError (Some s))
      (fun _ => App.bind (App.setLoading false)
                  (fun _ => App.setLoadingStatus "")) w /\
  App.error (App.react (fst (App.generate_guarded remaining w))) = Some s /\
  App.content (App.react (fst (App.generate_guarded remaining w))) =
    App.content (App.react w) /\
  (forall (chunks before after : list string) (w0 : App.World),
     flat_map App.data_lines chunks = before ++ line :: after ->
     forallb (App.continues JSON_parse) before = true ->
     App.generate_guarded (App.read_loop JSON_parse chunks) w0 =
     App.bind (App.setError (Some s))
       (fun _ => App.bind (App.setLoading false)
                   (fun _ => App.setLoadingStatus ""))
       (fst (App.for_lines JSON_parse before w0))).
Proof.
  intros Hp He Hne Hmask remaining.
  assert (Hline : forall w1, App.process_line JSON_parse line w1
                             = (w1, Throw (new_Error_msg s))).
  { intros w1.
    unfold App.process_line, App.try_catch, App.bind, App.lift.
    rewrite Hp. simpl. rewrite He. simpl.
    destruct (String.eqb_spec s "") as [->|_]; [done|]. simpl.
    unfold Js.new_Error. simpl.
    destruct (String.eqb_spec s "Unexpected end of JSON input") as [->|_];
      [done|]. done. }
  assert (Hrun : App.generate_guarded remaining w =
    App.bind (App.setError (Some s))
      (fun _ => App.bind (App.setLoading false)
                  (fun _ => App.setLoadingStatus "")) w).
  { assert (Hrem : remaining w = (w, Throw (new_Error_msg s))).
    { unfold remaining. apply bind_throw. cbn [App.for_lines].
      by apply bind_throw. }
    unfold App.generate_guarded, App.try_finally, App.try_catch.
    rewrite Hrem. done. }
  split; [apply Hline|]. split; [exact Hrun|].
  split; [by rewrite Hrun|]. split; [by rewrite Hrun|].
  intros chunks before after w0 Hl Hb.
  assert (Hloop : App.read_loop JSON_parse chunks w0 =
                  (fst (App.for_lines JSON_parse before w0),
                   Throw (new_Error_msg s))).
  { rewrite read_loop_flat, Hl, for_lines_app. unfold App.bind at 1.
    pose proof (for_lines_all_continue JSON_parse before w0 Hb) as Hn.
    destruct (App.for_lines JSON_parse before w0) as [w1 c].
    simpl in Hn. subst c. cbn [App.for_lines fst].
    apply bind_throw. apply Hline. }
  unfold App.generate_guarded, App.try_finally, App.try_catch.
  rewrite Hloop. done.
Qed.

End StreamEvents.

(** ** The upload action against any server *)

Section UploadRuns.

Variable JSON_parse : parser.
Variable net : request -> fetch_result.
Variable API_BASE : string.

Lemma upload_message_nonempty (m : string) :
  (if String.eqb m "" then "An error occurred while uploading" else m) <> "".
Proof. by destruct (String.eqb_spec m ""). Qed.

Local Ltac nonempty :=
  first [ apply upload_message_nonempty | discriminate ].

Local Ltac upload_run :=
  unfold App.handleUpload, App.try_finally, App.try_catch, App.bind,
    App.fetch, App.response_json, App.lift, App.throw, App.ret;
  simpl.

(** X11.  An upload ends, whatever the server does, with the loading flag
    down, the content cleared, the settings as they were, exactly one
    request sent (the file posted to [/upload-csv]) and without throwing;
    and it ends in one of two ways: with no error and the loading status
    empty, or with a null summary, a non-empty error message and the
    loading status still reading [Uploading CSV...]. *)
Theorem upload_always_settles (file : File) (w : App.World) :
  let r := App.handleUpload JSON_parse net API_BASE file w in
  snd r = Normal tt /\
  App.loading (App.react (fst r)) = false /\
  App.content (App.react (fst r)) = JNull /\
  App.settings (App.react (fst r)) = App.settings (App.react w) /\
  App.sent (fst r) = App.sent w ++ [App.upload_request API_BASE file] /\
  ((App.error (App.react (fst r)) = None /\
    App.loadingStatus (App.react (fst r)) = "") \/
   (exists m : string,
      App.error (App.react (fst r)) = Some m /\ m <> "" /\
      App.summary (App.react (fst r)) = JNull /\
      App.loadingStatus (App.react (fst r)) = "Uploading CSV...")).
Proof.
  upload_run.
  destruct (net (App.upload_request API_BASE file)) as [e|resp]; simpl.
  - repeat split. right. eexists. split; [reflexivity|].
    split; [nonempty|done].
  - destruct (ok resp); simpl.
    + destruct (String.eqb (App.response_text resp) ""); simpl.
      * repeat split. right. by eexists.
      * destruct (JSON_parse (App.response_text resp)) as [data|e]; simpl.
        -- repeat split. by left.
        -- repeat split. right. eexists. split; [reflexivity|].
           split; [nonempty|done].
    + destruct (JSON_parse (App.response_text resp)) as [data|e]; simpl.
      * destruct (Js.get data "detail") as [d|e]; simpl.
        -- repeat split. right. eexists. split; [reflexivity|].
           split; [nonempty|done].
        -- repeat split. right. eexists. split; [reflexivity|].
           split; [nonempty|done].
      * repeat split. right. eexists. split; [reflexivity|].
        split; [nonempty|done].
Qed.

(** X12.  When the server refuses an upload and the body gives no usable
    [detail], the displayed error is a fallback: [Server error: N] with N
    the HTTP status when the body is not JSON or is [null], and
    [Failed to upload CSV] when the body is an object whose [detail] is
    falsy. *)
Theorem refused_upload_fallbacks (file : File) (w : App.World)
    (resp : response) :
  net (App.upload_request API_BASE file) = Responded resp ->
  ok resp = false ->
  let w' := fst (App.handleUpload JSON_parse net API_BASE file w) in
  (forall e : Error,
     JSON_parse (App.response_text resp) = Throw e ->
     App.error (App.react w') =
       Some ("Server error: " +:+ pretty (status resp))) /\
  (JSON_parse (App.response_text resp) = Normal JNull ->
   App.error (App.react w') =
     Some ("Server error: " +:+ pretty (status resp))) /\
  (forall props : list (string * jsval),
     JSON_parse (App.response_text resp) = Normal (JObj props) ->
     Js.truthy (Js.prop props "detail") = false ->
     App.error (App.react w') = Some "Failed to upload CSV").
Proof.
  intros Hnet Hok w'. subst w'. upload_run. rewrite Hnet. simpl.
  rewrite Hok. simpl. repeat split.
  - intros e ->. reflexivity.
  - intros ->. reflexivity.
  - intros props -> Hd. simpl. unfold Js.or. rewrite Hd. reflexivity.
Qed.

(** X13.  The other ways an upload fails: an ok response with an empty
    body shows [Empty response from server]; an ok response whose body is
    not JSON shows the parser's message; a request that fails on the
    network shows the rejection's message; and a failure whose message is
    empty shows [An error occurred while uploading].  In each case the
    summary is set to null. *)
Theorem upload_failure_messages (file : File) (w : App.World) :
  let w' := fst (App.handleUpload JSON_parse net API_BASE file w) in
  let shown (m : string) :=
    App.error (App.react w') =
      Some (if String.eqb m "" then "An error occurred while uploading"
            else m) /\
    App.summary (App.react w') = JNull in
  (forall resp : response,
     net (App.upload_request API_BASE file) = Responded resp ->
     ok resp = true -> App.response_text resp = "" ->
     shown "Empty response from server") /\
  (forall (resp : response) (e : Error),
     net (App.upload_request API_BASE file) = Responded resp ->
     ok resp = true -> App.response_text resp <> "" ->
     JSON_parse (App.response_text resp) = Throw e ->
     shown (message e)) /\
  (forall e : Error,
     net (App.upload_request API_BASE file) = Rejected e ->
     shown (message e)).
Proof.
  intros w' shown. subst w' shown. upload_run. repeat split.
  - rewrite H. simpl. rewrite H0. simpl. rewrite H1. reflexivity.
  - rewrite H. simpl. rewrite H0. simpl. rewrite H1. reflexivity.
  - rewrite H. simpl. rewrite H0. simpl.
    destruct (String.eqb_spec (App.response_text resp) ""); [done|].
    simpl. rewrite H2. reflexivity.
  - rewrite H. simpl. rewrite H0. simpl.
    destruct (String.eqb_spec (App.response_text resp) ""); [done|].
    simpl. rewrite H2. reflexivity.
  - rewrite H. reflexivity.
  - rewrite H. reflexivity.
Qed.

End UploadRuns.

(** ** The generate button and the handler behind it *)

Section Button.

Variable JSON_parse : parser.
Variable net : request -> fetch_result.
Variable API_BASE : string.

Lemma handleGenerate_sent (w : App.World) :
  Js.truthy (App.summary (App.react w)) = true ->
  App.apiKey (App.settings (App.react w)) <> "" ->
  App.sent (fst (App.handleGenerate JSON_parse net API_BASE w)) =
  App.sent w ++
  [App.generate_request API_BASE (App.summary (App.react w))
     (App.settings (App.react w))].
Proof.
  intros Hs Hk.
  rewrite (handleGenerate_started JSON_parse net API_BASE w Hs Hk).
  rewrite generate_guarded_result.
  match goal with
  | |- context [let '(_, _) := ?m (App.started API_BASE w) in _] =>
      assert (Hf : App.only_output_changed (App.started API_BASE w)
                     (fst (m (App.started API_BASE w))));
      [|destruct (m (App.started API_BASE w)) as [w1 c]]
  end.
  - destruct (net _) as [e|resp]; [apply only_output_changed_refl|].
    destruct (ok resp); [apply read_loop_frame|].
    unfold App.bind, App.response_json, App.lift, App.throw.
    destruct (JSON_parse (App.response_text resp)) as [data|e];
      [|apply only_output_changed_refl].
    destruct (Js.get data "detail"); apply only_output_changed_refl.
  - destruct Hf as (_ & _ & _ & _ & H5). simpl in *. exact H5.
Qed.

(** X14.  The generate button and the guards of its handler agree: when
    the button is on the page and enabled, a click sends the request;
    and when a call of the handler sends nothing, the button was not on
    the page or was disabled. *)
Theorem enabled_button_sends_request (w : App.World) :
  (App.summary_section_shown (App.react w) = true ->
   App.generate_button_disabled (App.react w) = false ->
   App.sent (fst (App.handleGenerate JSON_parse net API_BASE w)) =
   App.sent w ++
   [App.generate_request API_BASE (App.summary (App.react w))
      (App.settings (App.react w))]) /\
  (App.sent (fst (App.handleGenerate JSON_parse net API_BASE w)) =
     App.sent w ->
   App.summary_section_shown (App.react w) = false \/
   App.generate_button_disabled (App.react w) = true).
Proof.
  unfold App.summary_section_shown, App.generate_button_disabled.
  split.
  - intros Hs Hd. apply orb_false_iff in Hd as [_ Hk].
    apply handleGenerate_sent; [exact Hs|].
    intros E. rewrite E in Hk. done.
  - intros Hsent.
    destruct (Js.truthy (App.summary (App.react w))) eqn:Hs; [|by left].
    right. apply orb_true_iff. right.
    destruct (String.eqb_spec (App.apiKey (App.settings (App.react w))) "")
      as [E|E]; [done|].
    rewrite (handleGenerate_sent w Hs E) in Hsent.
    apply (f_equal (@length request)) in Hsent.
    rewrite length_app in Hsent. simpl in Hsent. lia.
Qed.

End Button.

(** ** The upload zone over a sequence of events *)

Lemma uploads_app (l1 l2 : list CsvUpload.effect) :
  CsvUpload.uploads (l1 ++ l2) = CsvUpload.uploads l1 ++ CsvUpload.uploads l2.
Proof. unfold CsvUpload.uploads. apply flat_map_app. Qed.

Lemma last_nonempty_default {A} (x : A) (l : list A) (d1 d2 : A) :
  List.last (x :: l) d1 = List.last (x :: l) d2.
Proof.
  revert x. induction l as [|y l IH]; intros x; [reflexivity|].
  change (List.last (y :: l) d1 = List.last (y :: l) d2). apply IH.
Qed.

(** What one selection does: an accepted file is uploaded and named in
    the zone, anything else raises the alert and changes no name. *)
Lemma handleFileSelect_cases (file : option File) (st : CsvUpload.State) :
  (exists f stem,
     file = Some f /\ name f = stem +:+ ".csv" /\
     snd (CsvUpload.handleFileSelect file st) = [CsvUpload.onUpload f] /\
     CsvUpload.fileName (fst (CsvUpload.handleFileSelect file st)) =
       Some (name f)) \/
  (snd (CsvUpload.handleFileSelect file st) =
     [CsvUpload.alert "Please select a CSV file"] /\
   CsvUpload.fileName (fst (CsvUpload.handleFileSelect file st)) =
     CsvUpload.fileName st).
Proof.
  unfold CsvUpload.handleFileSelect.
  destruct file as [f|]; [|by right].
  destruct (JsString.endsWith ".csv" (name f)) eqn:E; [|by right].
  left. apply endsWith_suffix in E as [stem Hstem].
  by exists f, stem.
Qed.

(** X15.  Over any sequence of selections, drops and drags, the name shown
    in the zone is the name of the last file handed to [onUpload] (the
    name shown before, when none was); every file handed to [onUpload]
    has a name ending in [.csv]; and every selection or drop produces
    exactly one effect, an upload or the alert. *)
Theorem zone_names_last_upload (es : list CsvUpload.event)
    (st : CsvUpload.State) :
  let st' := fst (CsvUpload.run es st) in
  let out := snd (CsvUpload.run es st) in
  CsvUpload.fileName st' =
    List.last (map (fun f => Some (name f)) (CsvUpload.uploads out))
              (CsvUpload.fileName st) /\
  Forall (fun f => exists stem, name f = stem +:+ ".csv")
         (CsvUpload.uploads out) /\
  length out =
    length (List.filter
              (fun e => match e with
                        | CsvUpload.Change _ | CsvUpload.Drop _ => true
                        | _ => false
                        end) es).
Proof.
  revert st. induction es as [|e r IH]; intros st; [by repeat split|].
  cbn [CsvUpload.run].
  destruct (CsvUpload.handle e st) as [st1 out1] eqn:He.
  specialize (IH st1).
  destruct (CsvUpload.run r st1) as [st2 out2]. simpl in IH. simpl.
  destruct IH as (IHn & IHf & IHl).
  rewrite uploads_app, map_app, length_app.
  assert (Hcase :
    (exists f stem, name f = stem +:+ ".csv" /\
       out1 = [CsvUpload.onUpload f] /\
       CsvUpload.fileName st1 = Some (name f) /\
       (exists fs, e = CsvUpload.Change fs \/ e = CsvUpload.Drop fs)) \/
    (CsvUpload.uploads out1 = [] /\
     CsvUpload.fileName st1 = CsvUpload.fileName st /\
     length out1 = (match e with
                    | CsvUpload.Change _ | CsvUpload.Drop _ => 1
                    | _ => 0
                    end))).
  { destruct e as [fs| | |fs]; simpl in He.
    - unfold CsvUpload.handleChange in He.
      destruct (handleFileSelect_cases (head fs) st)
        as [(f & stem & _ & Hn & Ho & Hf)|[Ho Hf]];
        rewrite He in Ho, Hf; simpl in Ho, Hf.
      + left. exists f, stem. repeat split; try done. exists fs. by left.
      + right. subst out1. by repeat split.
    - injection He as <- <-. right. by repeat split.
    - injection He as <- <-. right. by repeat split.
    - unfold CsvUpload.handleDrop in He.
      destruct (handleFileSelect_cases (head fs)
                  (CsvUpload.setIsDragging false st))
        as [(f & stem & _ & Hn & Ho & Hf)|[Ho Hf]];
        rewrite He in Ho, Hf; simpl in Ho, Hf.
      + left. exists f, stem. repeat split; try done. exists fs. by right.
      + right. subst out1. by repeat split. }
  destruct Hcase as [(f & stem & Hn & -> & Hf & fs & He')|(Hu & Hf & Hl)].
  - simpl. split; [|split].
    + rewrite IHn, Hf.
      destruct (map (fun f0 => Some (name f0)) (CsvUpload.uploads out2));
        [reflexivity|apply last_nonempty_default].
    + constructor; [by exists stem|exact IHf].
    + destruct He' as [-> | ->]; simpl; by rewrite IHl.
  - rewrite Hu. simpl. split; [|split].
    + by rewrite IHn, Hf.
    + exact IHf.
    + rewrite Hl, IHl. by destruct e.
Qed.

(** ** The settings panel over a sequence of actions *)

Lemma getItem_or_insert_ne (k k' v d : string) (ls : gmap string string) :
  k <> k' ->
  SettingsPanel.getItem_or k (<[k' := v]> ls) d =
  SettingsPanel.getItem_or k ls d.
Proof.
  intros H. unfold SettingsPanel.getItem_or.
  by rewrite lookup_insert_ne.
Qed.

Lemma getItem_or_delete (k d : string) (ls : gmap string string) :
  SettingsPanel.getItem_or k (delete k ls) d = d.
Proof. unfold SettingsPanel.getItem_or. by rewrite lookup_delete_eq. Qed.

Lemma getItem_or_delete_ne (k k' d : string) (ls : gmap string string) :
  k <> k' ->
  SettingsPanel.getItem_or k (delete k' ls) d =
  SettingsPanel.getItem_or k ls d.
Proof.
  intros H. unfold SettingsPanel.getItem_or.
  by rewrite lookup_delete_ne.
Qed.

Lemma getItem_or_nonempty (k d : string) (ls : gmap string string) :
  d <> "" -> SettingsPanel.getItem_or k ls d <> "".
Proof.
  intros Hd. unfold SettingsPanel.getItem_or.
  destruct (ls !! k) as [s|]; [|done].
  by destruct (String.eqb_spec s "").
Qed.

Lemma parent_settings_snoc (st : SettingsPanel.State)
    (ls : gmap string string) (l : list App.Settings) (x : App.Settings) :
  SettingsPanel.parent_settings
    {| SettingsPanel.state := st; SettingsPanel.localStorage := ls;
       SettingsPanel.notified := l ++ [x] |} = x.
Proof. unfold SettingsPanel.parent_settings. simpl. apply last_last. Qed.

Lemma in_step_mount (ls : gmap string string) :
  SettingsPanel.in_step (SettingsPanel.mount ls).
Proof.
  unfold SettingsPanel.in_step, SettingsPanel.mount, SettingsPanel.on_mount.
  cbn [SettingsPanel.localStorage SettingsPanel.notified].
  change ([] ++ ?l) with l.
  unfold SettingsPanel.parent_settings. simpl. split; [done|].
  pose proof (getItem_or_nonempty "openai_model"
                SettingsPanel.default_model ls) as Hne.
  destruct (String.eqb_spec
              (SettingsPanel.getItem_or "openai_model" ls
                 SettingsPanel.default_model) "") as [E|_]; [|done].
  exfalso. by apply Hne.
Qed.

Lemma in_step_act (a : SettingsPanel.action) (w : SettingsPanel.World) :
  SettingsPanel.in_step w -> SettingsPanel.in_step (SettingsPanel.act a w).
Proof.
  intros [Hk Hm]. destruct a as [v|v| | |]; simpl.
  - exact (conj Hk Hm).
  - exact (conj Hk Hm).
  - unfold SettingsPanel.in_step, SettingsPanel.handleSave.
    rewrite parent_settings_snoc. simpl.
    rewrite getItem_or_insert_ne by done.
    rewrite !getItem_or_insert. split; [|done].
    by destruct (String.eqb_spec
                   (SettingsPanel.apiKey (SettingsPanel.state w)) "")
      as [->|_].
  - exact (conj Hk Hm).
  - unfold SettingsPanel.in_step, SettingsPanel.handleClear.
    rewrite parent_settings_snoc. simpl.
    rewrite getItem_or_delete_ne by done.
    by rewrite !getItem_or_delete.
Qed.

Lemma in_step_run (l : list SettingsPanel.action) (w : SettingsPanel.World) :
  SettingsPanel.in_step w -> SettingsPanel.in_step (SettingsPanel.run l w).
Proof.
  revert w. induction l as [|a l IH]; intros w H; [done|].
  apply IH. by apply in_step_act.
Qed.

(** X16.  However the panel is used after it is mounted (typing, saving,
    clearing, in any order), the key the parent holds is the key a
    reload would restore, and so is the model, with the default model in
    place of an empty one. *)
Theorem parent_agrees_with_reload (ls : gmap string string)
    (l : list SettingsPanel.action) :
  let w := SettingsPanel.run l (SettingsPanel.mount ls) in
  let held := SettingsPanel.parent_settings w in
  let reloaded :=
    SettingsPanel.state (SettingsPanel.mount (SettingsPanel.localStorage w)) in
  SettingsPanel.apiKey reloaded = App.apiKey held /\
  SettingsPanel.model reloaded =
    (if String.eqb (App.model held) "" then "gpt-5-mini-2025-08-07"
     else App.model held).
Proof.
  intros w held reloaded.
  exact (in_step_run l (SettingsPanel.mount ls) (in_step_mount ls)).
Qed.

(** X17.  A panel that has just been mounted never holds an empty model,
    and it counts as configured exactly when the store holds a non-empty
    key. *)
Theorem mounted_panel_has_model (ls : gmap string string) :
  SettingsPanel.model (SettingsPanel.state (SettingsPanel.mount ls)) <> "" /\
  (SettingsPanel.isConfigured
     (SettingsPanel.state (SettingsPanel.mount ls)) = true <->
   exists k : string, ls !! "openai_api_key" = Some k /\ k <> "").
Proof.
  split.
  - apply getItem_or_nonempty. done.
  - unfold SettingsPanel.isConfigured, SettingsPanel.mount,
      SettingsPanel.on_mount, SettingsPanel.getItem_or. simpl.
    destruct (ls !! "openai_api_key") as [k|].
    + destruct (String.eqb_spec k "") as [->|Hne]; simpl.
      * split; [done|]. by intros (k & [= <-] & Hk).
      * split; [by exists k|]. intros _. by destruct k.
    + simpl. split; [done|]. by intros (k & [=] & _).
Qed.

(** X18.  The panel reads and writes two items of the store only: every
    other item is left as it was by any sequence of actions. *)
Theorem other_items_untouched (l : list SettingsPanel.action)
    (w : SettingsPanel.World) (k : string) :
  k <> "openai_api_key" -> k <> "openai_model" ->
  SettingsPanel.localStorage (SettingsPanel.run l w) !! k =
  SettingsPanel.localStorage w !! k.
Proof.
  intros Hk Hm. revert w. induction l as [|a l IH]; intros w; [done|].
  cbn [SettingsPanel.run fold_left].
  change (fold_left (fun w a => SettingsPanel.act a w) l
            (SettingsPanel.act a w))
    with (SettingsPanel.run l (SettingsPanel.act a w)).
  rewrite IH. destruct a; simpl; try done.
  - by rewrite !lookup_insert_ne.
  - by rewrite !lookup_delete_ne.
Qed.

(** X19.  Clearing after saving removes both items again: the store is
    the original one without the two items, and exactly the original one
    when it held neither. *)
Theorem clear_undoes_save (w : SettingsPanel.World) :
  let after := SettingsPanel.localStorage
                 (SettingsPanel.handleClear (SettingsPanel.handleSave w)) in
  after = delete "openai_model"
            (delete "openai_api_key" (SettingsPanel.localStorage w)) /\
  (SettingsPanel.localStorage w !! "openai_api_key" = None ->
   SettingsPanel.localStorage w !! "openai_model" = None ->
   after = SettingsPanel.localStorage w).
Proof.
  simpl.
  assert (Heq :
    delete "openai_model"
      (delete "openai_api_key"
         (<["openai_model" := SettingsPanel.model (SettingsPanel.state w)]>
            (<["openai_api_key" :=
                 SettingsPanel.apiKey (SettingsPanel.state w)]>
               (SettingsPanel.localStorage w)))) =
    delete "openai_model"
      (delete "openai_api_key" (SettingsPanel.localStorage w))).
  { apply map_eq. intros k.
    destruct (decide (k = "openai_model")) as [->|Hm].
    - by rewrite !lookup_delete_eq.
    - rewrite !(lookup_delete_ne _ "openai_model") by done.
      destruct (decide (k = "openai_api_key")) as [->|Hk].
      + by rewrite !lookup_delete_eq.
      + rewrite !(lookup_delete_ne _ "openai_api_key") by done.
        by rewrite !lookup_insert_ne. }
  split; [exact Heq|].
  intros Hk Hm. rewrite Heq.
  by rewrite (delete_id _ "openai_api_key"), delete_id.
Qed.

(** ** From the panel to the request *)

(** X20.  The settings saved in the panel are the ones the next
    generation request carries: after Save with a non-empty key and the
    parent updated, the generate action sends the request built from the
    loaded summary with the panel's key and model; after Clear it sends
    nothing and, when a summary is loaded, asks for the key. *)
Theorem saved_settings_reach_request (JSON_parse : parser)
    (net : request -> fetch_result) (API_BASE : string)
    (p : SettingsPanel.World) (a : App.World) :
  Js.truthy (App.summary (App.react a)) = true ->
  (SettingsPanel.apiKey (SettingsPanel.state p) <> "" ->
   let held := SettingsPanel.parent_settings (SettingsPanel.handleSave p) in
   let a' := fst (App.handleSettingsChange held a) in
   App.sent (fst (App.handleGenerate JSON_parse net API_BASE a')) =
   App.sent a ++
   [App.generate_request API_BASE (App.summary (App.react a))
      {| App.apiKey := SettingsPanel.apiKey (SettingsPanel.state p);
         App.model := SettingsPanel.model (SettingsPanel.state p) |}]) /\
  (let held := SettingsPanel.parent_settings (SettingsPanel.handleClear p) in
   let a' := fst (App.handleSettingsChange held a) in
   let a'' := fst (App.handleGenerate JSON_parse net API_BASE a') in
   App.sent a'' = App.sent a /\
   App.error (App.react a'') =
     Some "Please configure your OpenAI API key in settings first.").
Proof.
  intros Hs. split.
  - intros Hk held a'. subst held a'.
    unfold SettingsPanel.handleSave. rewrite parent_settings_snoc.
    rewrite handleGenerate_sent; [reflexivity|exact Hs|exact Hk].
  - intros held a' a''. subst held a' a''.
    unfold SettingsPanel.handleClear. rewrite parent_settings_snoc.
    unfold App.handleGenerate. simpl. rewrite Hs. simpl. done.
Qed.

(** ** The copy texts of the content cards *)

Lemma join_strings (sep : string) (l : list string) :
  ContentDisplay.join sep (map JStr l) = String.concat sep l.
Proof.
  induction l as [|x r IH]; [reflexivity|].
  destruct r as [|y r]; [reflexivity|].
  change (ContentDisplay.join sep (map JStr (x :: y :: r)))
    with (x +:+ sep +:+ ContentDisplay.join sep (map JStr (y :: r))).
  by rewrite IH.
Qed.

Lemma keep_nonempty (s : string) : (if String.eqb s "" then "" else s) = s.
Proof. by destruct (String.eqb_spec s "") as [->|_]. Qed.

(** X21.  The header copy text of a card is the caption, a blank line and
    the hashtags joined by spaces.  It is never empty, so the fallback to
    the empty string is never taken: for a content without the card it
    is the word [undefined] twice around the blank line.  Hashtags that
    are neither absent nor an array make the rendering throw. *)
Theorem header_copy_text_shape (part : string) (content : jsval) :
  (forall s : string,
     ContentDisplay.header_copy_text part content = Normal s ->
     exists a b, s = a +:+ ContentDisplay.blank_line +:+ b) /\
  (forall (card : list (string * jsval)) (caption : string)
          (tags : list string),
     ContentDisplay.opt_get content part = JObj card ->
     Js.prop card "caption" = JStr caption ->
     Js.prop card "hashtags" = JArr (map JStr tags) ->
     ContentDisplay.header_copy_text part content =
     Normal (caption +:+ ContentDisplay.blank_line +:+
             String.concat " " tags)) /\
  (ContentDisplay.opt_get content part = JUndefined ->
   ContentDisplay.header_copy_text part content =
   Normal ("undefined" +:+ ContentDisplay.blank_line +:+ "undefined")) /\
  (forall (card : list (string * jsval)),
     ContentDisplay.opt_get content part = JObj card ->
     (exists s, Js.prop card "hashtags" = JStr s) \/
     (exists o, Js.prop card "hashtags" = JObj o) ->
     exists e, ContentDisplay.header_copy_text part content = Throw e).
Proof.
  unfold ContentDisplay.header_copy_text. repeat split.
  - intros s.
    destruct (ContentDisplay.opt_join _ " ") as [tags|e]; [|done].
    rewrite keep_nonempty. intros [= <-]. by eexists _, _.
  - intros card caption tags -> Hc Ht.
    cbn [ContentDisplay.opt_get]. rewrite Hc, Ht.
    cbn [ContentDisplay.opt_join]. rewrite keep_nonempty, join_strings.
    reflexivity.
  - intros ->. reflexivity.
  - intros card -> [[s Hs]|[o Ho]]; cbn [ContentDisplay.opt_get].
    + rewrite Hs. by eexists.
    + rewrite Ho. by eexists.
Qed.

Lemma idea_texts_strings (ideas : list jsval) (texts : list string) :
  Forall2 (fun i t => exists props, i = JObj props /\
                                    Js.prop props "text" = JStr t)
          ideas texts ->
  ContentDisplay.idea_texts ideas = Normal (map JStr texts).
Proof.
  induction 1 as [|i t ideas texts (props & -> & Ht) _ IH]; [reflexivity|].
  cbn [ContentDisplay.idea_texts Js.get]. rewrite Ht, IH. reflexivity.
Qed.

(** X22.  The copy text of the promotion ideas is the ideas' texts with a
    blank line between them; it is empty when the content has no ideas
    property or an empty list, and a [null] anywhere in the list makes
    the rendering throw. *)
Theorem ideas_copy_text_shape (content : jsval) :
  (forall (ideas : list jsval) (texts : list string),
     ContentDisplay.opt_get content "promotion_ideas" = JArr ideas ->
     Forall2 (fun i t => exists props, i = JObj props /\
                                       Js.prop props "text" = JStr t)
             ideas texts ->
     ContentDisplay.ideas_copy_text content =
     Normal (String.concat ContentDisplay.blank_line texts)) /\
  (ContentDisplay.opt_get content "promotion_ideas" = JUndefined \/
   ContentDisplay.opt_get content "promotion_ideas" = JNull \/
   ContentDisplay.opt_get content "promotion_ideas" = JArr [] ->
   ContentDisplay.ideas_copy_text content = Normal "") /\
  (forall before after : list jsval,
     ContentDisplay.opt_get content "promotion_ideas" =
       JArr (before ++ JNull :: after) ->
     Forall (fun i => exists props, i = JObj props) before ->
     exists e, ContentDisplay.ideas_copy_text content = Throw e).
Proof.
  unfold ContentDisplay.ideas_copy_text. repeat split.
  - intros ideas texts -> Hall.
    rewrite (idea_texts_strings ideas texts Hall).
    by rewrite keep_nonempty, join_strings.
  - intros [-> | [-> | ->]]; reflexivity.
  - intros before after -> Hall.
    assert (Ht : exists e,
               ContentDisplay.idea_texts (before ++ JNull :: after) = Throw e).
    { induction Hall as [|i l (props & ->) _ [e IH]]; simpl.
      - by eexists.
      - rewrite IH. by eexists. }
    destruct Ht as [e ->]. by eexists.
Qed.

(** ** Payloads the loop passes over *)

(** X23.  A line whose payload is a number, a string, a boolean or an
    array, or an object with no truthy [error] whose status is none of
    the five the loop knows, changes nothing and lets the loop go on. *)
Theorem unknown_payload_ignored (JSON_parse : parser) (line : string)
    (w : App.World) (data : jsval) :
  JSON_parse (JsString.slice 6 line) = Normal data ->
  match data with
  | JUndefined | JNull => False
  | JObj props =>
      Js.truthy (Js.prop props "error") = false /\
      Forall (fun s => Js.prop props "status" <> JStr s)
        ["connecting"; "generating"; "streaming"; "processing"; "complete"]
  | _ => True
  end ->
  App.process_line JSON_parse line w = (w, Normal tt).
Proof.
  intros Hp Hd. rewrite process_line_cases, Hp.
  destruct data as [| |b|n|s|items|props]; try done.
  destruct Hd as [He Hs]. rewrite He.
  unfold App.status_dispatch, App.bind, App.lift. simpl.
  repeat match goal with
         | |- context [Js.strict_eq_str ?v ?lit] =>
             let E := fresh in
             destruct (Js.strict_eq_str v lit) eqn:E;
             [apply strict_eq_str_true in E; exfalso;
              rewrite Forall_forall in Hs; apply (Hs lit);
              [set_solver|exact E]|]
         end.
  reflexivity.
Qed.

(** * The further properties at concrete inputs *)

Section ConcreteRuns.

Import Examples Cases.

(** An error line ends the loop and leaves the state (X1). *)
Lemma error_line_leaves_state :
  fst (App.process_line Json.parse error_line ready) = ready /\
  "Invalid API key" <> "Unexpected end of JSON input".
Proof.
  apply (proj2 (line_ends_loop_iff Json.parse error_line ready)
           (new_Error_msg "Invalid API key")).
  vm_compute. reflexivity.
Defined.

(** Two chunks that end at line ends act as their concatenation (X4). *)
Lemma complete_stream_in_one_piece :
  App.read_loop Json.parse complete_stream ready =
  App.read_loop Json.parse [JsString.concat complete_stream] ready.
Proof.
  apply line_aligned_chunks_agree.
  repeat constructor.
  - exists (streaming_line +:+ String JsString.newline ""). reflexivity.
  - exists (complete_line +:+ String JsString.newline ""). reflexivity.
Defined.

(** The generate action settles on a stream that ends in an error (X5). *)
Lemma error_stream_settles :
  let r := App.handleGenerate Json.parse (streams error_stream) base ready in
  snd r = Normal tt /\
  App.loading (App.react (fst r)) = false /\
  App.loadingStatus (App.react (fst r)) = "" /\
  App.summary (App.react (fst r)) = App.summary (App.react ready) /\
  App.settings (App.react (fst r)) = App.settings (App.react ready) /\
  App.sent (fst r) =
    App.sent ready ++
    [App.generate_request base (App.summary (App.react ready))
       (App.settings (App.react ready))].
Proof.
  apply (generate_always_settles Json.parse (streams error_stream) base
           ready); [reflexivity|discriminate].
Defined.


(** A stream ending in a complete line shows that line's data (X7). *)
Lemma complete_stream_shows_data :
  let w' := fst (App.handleGenerate Json.parse (streams complete_stream)
                   base ready) in
  App.content (App.react w') = Js.prop complete_props "data" /\
  App.error (App.react w') = None.
Proof.
  apply (stream_ending_in_complete_shows_data Json.parse
           (streams complete_stream) base ready
           (ok_response complete_stream) [streaming_line] complete_line
           complete_props);
    first [discriminate | vm_compute; reflexivity].
Defined.

(** The error line of a stream decides, the line after it is not read
    (X8). *)
Lemma error_stream_stops_at_error :
  let w' := fst (App.handleGenerate Json.parse (streams error_stream)
                   base ready) in
  exists e : Error,
    snd (App.process_line Json.parse error_line
           (fst (App.for_lines Json.parse [streaming_line]
                   (App.started base ready)))) = Throw e /\
    App.error (App.react w') = Some (message e) /\
    App.content (App.react w') =
      App.content
        (App.react (fst (App.for_lines Json.parse [streaming_line]
                           (App.started base ready)))).
Proof.
  apply (first_stopping_line_decides Json.parse (streams error_stream) base
           ready (ok_response error_stream) [streaming_line]
           [complete_line] error_line);
    first [discriminate | vm_compute; reflexivity].
Defined.

(** A refused generate request shows the server's detail (X9). *)
Lemma refused_generate_detail :
  App.error
    (App.react
       (fst (App.handleGenerate Json.parse
               (refuses 401 (Json.dq "{'detail':'Invalid API key'}"))
               base ready))) = Some "Invalid API key".
Proof.
  apply (proj1 (proj2 (refused_generate_shows_detail Json.parse
                  (refuses 401 (Json.dq "{'detail':'Invalid API key'}"))
                  base ready
                  {| ok := false; status := 401;
                     chunks := [Json.dq "{'detail':'Invalid API key'}"] |}
                  eq_refl ltac:(discriminate) eq_refl eq_refl))
           [("detail", JStr "Invalid API key")] "Invalid API key");
    first [discriminate | vm_compute; reflexivity].
Defined.

(** Without a network the generate action shows the failure (X10). *)
Lemma offline_generate_message :
  let w' := fst (App.handleGenerate Json.parse offline base ready) in
  App.error (App.react w') = Some "Failed to fetch" /\
  App.content (App.react w') = App.content (App.react ready).
Proof.
  apply (rejected_generate_shows_message Json.parse offline base ready
           (new_Error_msg "Failed to fetch"));
    first [discriminate | reflexivity].
Defined.

(** A refused upload with an HTML body shows the status (X12). *)
Lemma refused_upload_status :
  App.error
    (App.react (fst (App.handleUpload Json.parse (refuses 502 "<html>")
                       base csv_file fresh))) =
  Some ("Server error: " +:+ pretty 502%Z).
Proof.
  apply (proj1 (refused_upload_fallbacks Json.parse (refuses 502 "<html>")
                  base csv_file fresh
                  {| ok := false; status := 502; chunks := ["<html>"] |}
                  eq_refl eq_refl)
           (Json.unexpected "<"%char)).
  vm_compute. reflexivity.
Defined.

(** An ok upload response without a body is reported (X13). *)
Lemma empty_upload_body_message :
  let w' := fst (App.handleUpload Json.parse (streams []) base csv_file
                   fresh) in
  App.error (App.react w') = Some "Empty response from server" /\
  App.summary (App.react w') = JNull.
Proof.
  apply (proj1 (upload_failure_messages Json.parse (streams []) base
                  csv_file fresh) (ok_response []));
    reflexivity.
Defined.

(** With a summary and a key the button's click sends the request (X14). *)
Lemma ready_button_sends :
  App.sent (fst (App.handleGenerate Json.parse (streams []) base ready)) =
  App.sent ready ++
  [App.generate_request base (App.summary (App.react ready))
     (App.settings (App.react ready))].
Proof.
  apply (proj1 (enabled_button_sends_request Json.parse (streams []) base
                  ready)); reflexivity.
Defined.

(** A stored key makes the mounted panel configured (X17). *)
Lemma keyed_store_configured :
  SettingsPanel.isConfigured
    (SettingsPanel.state (SettingsPanel.mount keyed_store)) = true.
Proof.
  apply (proj2 (mounted_panel_has_model keyed_store)).
  exists "sk-test". split; [reflexivity|discriminate].
Defined.

(** Saving and clearing leave a foreign item of the store alone (X18). *)
Lemma theme_item_kept :
  SettingsPanel.localStorage
    (SettingsPanel.run
       [SettingsPanel.TypeKey "sk-test"; SettingsPanel.Save;
        SettingsPanel.Clear]
       (SettingsPanel.mount themed_store)) !! "theme" =
  SettingsPanel.localStorage (SettingsPanel.mount themed_store) !! "theme".
Proof. apply other_items_untouched; discriminate. Defined.

(** Saving and clearing over an empty store leave it empty (X19). *)
Lemma save_then_clear_restores :
  SettingsPanel.localStorage
    (SettingsPanel.handleClear
       (SettingsPanel.handleSave (typed "sk-test" "gpt-4o"))) =
  SettingsPanel.localStorage (typed "sk-test" "gpt-4o").
Proof.
  apply (proj2 (clear_undoes_save (typed "sk-test" "gpt-4o")));
    reflexivity.
Defined.

(** The key saved in the panel is the key of the next request (X20). *)
Lemma saved_key_in_request :
  let held := SettingsPanel.parent_settings
                (SettingsPanel.handleSave (typed "sk-live" "gpt-4o")) in
  let a' := fst (App.handleSettingsChange held ready) in
  App.sent (fst (App.handleGenerate Json.parse (streams []) base a')) =
  App.sent ready ++
  [App.generate_request base (App.summary (App.react ready))
     {| App.apiKey := "sk-live"; App.model := "gpt-4o" |}].
Proof.
  apply (proj1 (saved_settings_reach_request Json.parse (streams []) base
                  (typed "sk-live" "gpt-4o") ready eq_refl)).
  discriminate.
Defined.

(** The header copy text of the example content (X21). *)
Lemma instagram_copy_text :
  ContentDisplay.header_copy_text "instagram"
    (Js.prop complete_props "data") =
  Normal ("Pho!" +:+ ContentDisplay.blank_line +:+ String.concat " " ["#pho"]).
Proof.
  apply (proj1 (proj2 (header_copy_text_shape "instagram"
                         (Js.prop complete_props "data")))
           [("caption", JStr "Pho!"); ("hashtags", JArr [JStr "#pho"])]
           "Pho!" ["#pho"]); reflexivity.
Defined.

(** The copy text of two ideas (X22). *)
Lemma two_ideas_copy_text :
  ContentDisplay.ideas_copy_text ideas_content =
  Normal (String.concat ContentDisplay.blank_line
            ["Two for one"; "Happy hour"]).
Proof.
  apply (proj1 (ideas_copy_text_shape ideas_content)
           [JObj [("text", JStr "Two for one");
                  ("reason", JStr "Pho sells best")];
            JObj [("text", JStr "Happy hour");
                  ("reason", JStr "Evenings are slow")]]);
    [reflexivity|].
  repeat constructor; eexists; split; reflexivity.
Defined.

(** A line with a status the loop does not know is passed over (X23). *)
Lemma future_status_ignored :
  App.process_line Json.parse future_line ready = (ready, Normal tt).
Proof.
  apply (unknown_payload_ignored Json.parse future_line ready
           (JObj [("status", JStr "queued"); ("position", JNum 3)]));
    [vm_compute; reflexivity|].
  split; [reflexivity|]. repeat constructor; discriminate.
Defined.

(** C1, counterexample.  A line whose payload has status [complete] and
    also a truthy [error] throws, and the content is not set to the
    payload's [data].  And a complete line that the server sends but that
    arrives cut across two chunks sets no content either, and no error
    is shown: the head fails to parse and is skipped, the tail does not
    begin with [data: ]; delivered in one chunk the same bytes set the
    content.  And a complete line that follows an error line is never
    processed. *)
Lemma complete_line_not_shown :
  (Json.parse (JsString.slice 6 complete_with_error_line) =
     Normal (JObj [("status", JStr "complete"); ("data", JStr "x");
                   ("error", JStr "boom")]) /\
   App.process_line Json.parse complete_with_error_line ready =
     (ready, Throw (new_Error_msg "boom")) /\
   App.content (App.react (fst (App.process_line Json.parse
                                  complete_with_error_line ready))) <>
     JStr "x" /\
   App.content (App.react (fst (App.handleGenerate Json.parse
       (streams [complete_with_error_line +:+ nl2]) base ready))) = JNull) /\
  (JsString.concat [complete_head; complete_tail] = complete_line +:+ nl2 /\
   Json.parse (JsString.slice 6 complete_line) = Normal (JObj complete_props) /\
   (let w' := fst (App.handleGenerate Json.parse
                     (streams [complete_head; complete_tail]) base ready) in
    App.content (App.react w') = JNull /\
    App.content (App.react w') <> Js.prop complete_props "data" /\
    App.error (App.react w') = None) /\
   App.content (App.react (fst (App.handleGenerate Json.parse
       (streams [complete_line +:+ nl2]) base ready))) =
     Js.prop complete_props "data") /\
  (flat_map App.data_lines error_stream =
     [streaming_line; error_line; complete_line] /\
   App.content (App.react (fst (App.handleGenerate Json.parse
       (streams error_stream) base ready))) = JNull).
Proof. vm_compute. repeat split; discriminate. Qed.

(** The complete event of the examples is shown (C1). *)
Lemma complete_event_shown :
  Json.parse (JsString.slice 6 complete_line) = Normal (JObj complete_props) /\
  App.process_line Json.parse complete_line ready =
    App.bind (App.setContent (Js.prop complete_props "data"))
             (fun _ => App.setLoadingStatus "") ready.
Proof.
  split; [vm_compute; reflexivity|].
  apply (proj1 (complete_event_sets_content Json.parse));
    vm_compute; reflexivity.
Defined.

(** C2, counterexample.  An event whose [error] is the empty string is not
    taken for an error: nothing is displayed and, as its status is
    [complete], its [data] becomes the content.  An event whose [error]
    is the text [Unexpected end of JSON input] is thrown and then skipped
    like a truncated line: nothing is displayed and the lines after it
    are processed.  And an error line that the server sends but that
    arrives cut across two chunks displays nothing: the head fails to
    parse and is skipped, the tail does not begin with [data: ].  And an
    error line that follows a line which has ended the loop is never
    processed: the earlier line's message is the one displayed. *)
Lemma error_event_not_surfaced :
  (Json.parse (JsString.slice 6 empty_error_line) =
     Normal (JObj [("error", JStr ""); ("status", JStr "complete");
                   ("data", JStr "x")]) /\
   (let w' := fst (App.handleGenerate Json.parse
                     (streams [empty_error_line +:+ nl2]) base ready) in
    App.error (App.react w') = None /\
    App.content (App.react w') = JStr "x")) /\
  (Json.parse (JsString.slice 6 masked_error_line) =
     Normal (JObj [("error", JStr "Unexpected end of JSON input")]) /\
   (let w' := fst (App.handleGenerate Json.parse
                     (streams [masked_error_line +:+ nl2;
                               complete_line +:+ nl2]) base ready) in
    App.error (App.react w') = None /\
    App.content (App.react w') = Js.prop complete_props "data")) /\
  (JsString.concat [error_head; error_tail] = error_line +:+ nl2 /\
   Json.parse (JsString.slice 6 error_line) =
     Normal (JObj [("error", JStr "Invalid API key")]) /\
   App.error (App.react (fst (App.handleGenerate Json.parse
       (streams [error_head; error_tail]) base ready))) = None /\
   App.error (App.react (fst (App.handleGenerate Json.parse
       (streams [error_line +:+ nl2]) base ready))) =
     Some "Invalid API key") /\
  (flat_map App.data_lines
     [connecting_with_error_line +:+ nl2; error_line +:+ nl2] =
     [connecting_with_error_line; error_line] /\
   App.error (App.react (fst (App.handleGenerate Json.parse
       (streams [connecting_with_error_line +:+ nl2; error_line +:+ nl2])
       base ready))) = Some "boom").
Proof. vm_compute. repeat split. Qed.

(** An error event ends the stream before the lines and chunks after it
    (C2). *)
Lemma invalid_key_event_shown :
  let remaining :=
    App.bind (App.for_lines Json.parse [error_line; complete_line])
             (fun _ => App.read_loop Json.parse [complete_line]) in
  App.error (App.react (fst (App.generate_guarded remaining ready))) =
    Some "Invalid API key" /\
  App.content (App.react (fst (App.generate_guarded remaining ready))) =
    JNull.
Proof.
  pose proof (error_event_ends_stream Json.parse error_line [complete_line]
                [complete_line] ready [("error", JStr "Invalid API key")]
                "Invalid API key") as H.
  destruct H as (_ & _ & He & Hc & _);
    [vm_compute; reflexivity | reflexivity | discriminate | discriminate |].
  split; [exact He|exact Hc].
Defined.

(** C5, counterexample.  A line whose payload has status [connecting] and
    also a truthy [error] throws: the loading status is not set to the
    message of that status, and the handler ends with the error
    displayed. *)
Lemma connecting_with_error_throws :
  Json.parse (JsString.slice 6 connecting_with_error_line) =
    Normal (JObj [("status", JStr "connecting"); ("error", JStr "boom")]) /\
  App.process_line Json.parse connecting_with_error_line ready =
    (ready, Throw (new_Error_msg "boom")) /\
  App.loadingStatus
    (App.react (fst (App.process_line Json.parse connecting_with_error_line
                       ready))) <> "Connecting to AI..." /\
  App.error (App.react (fst (App.handleGenerate Json.parse
      (streams [connecting_with_error_line +:+ nl2]) base ready))) =
    Some "boom".
Proof. vm_compute. repeat split; discriminate. Qed.

(** A streaming line shows its character count (C5). *)
Lemma streaming_line_message :
  Json.parse (JsString.slice 6 streaming_line) =
    Normal streaming_event /\
  App.loadingStatus
    (App.react (fst (App.process_line Json.parse streaming_line ready))) =
  "Generating content... (120 chars)".
Proof.
  split; [vm_compute; reflexivity|].
  apply (proj1 (proj2 (proj2 (proj2
           (progress_status_messages Json.parse streaming_line ready
              [("status", JStr "streaming"); ("partial", JNum 120)]
              ltac:(vm_compute; reflexivity) eq_refl)))) 120%Z);
    reflexivity.
Defined.

(** C6, counterexample.  A request the client leaves after the first
    token has the events [connecting] and [generating] and no terminal
    event; with the client staying the same request ends in one. *)
Lemma abandoned_request_has_no_terminal :
  Pipeline.event_stream rejects_all kind_name every_token left_early =
    [Pipeline.status Pipeline.connecting;
     Pipeline.status Pipeline.generating] /\
  List.filter Pipeline.is_terminal
    (Pipeline.event_stream rejects_all kind_name every_token left_early)
    = [] /\
  List.filter Pipeline.is_terminal
    (Pipeline.event_stream rejects_all kind_name every_token
       (Pipeline.attended left_early))
    = [Pipeline.error "MalformedModelOutput"].
Proof. vm_compute. repeat split. Qed.

(** The same request with the client staying has one terminal event, the
    last (C6). *)
Lemma attended_request_has_one_terminal :
  exists (stages : list Pipeline.stage) (t : Pipeline.StreamEvent),
    Pipeline.event_stream rejects_all kind_name every_token
      (Pipeline.attended left_early) =
      map Pipeline.status stages ++ [t] /\
    Pipeline.is_terminal t = true /\
    Pipeline.in_order stages /\
    List.filter Pipeline.is_terminal
      (Pipeline.event_stream rejects_all kind_name every_token
         (Pipeline.attended left_early)) = [t].
Proof.
  apply (proj1 (one_terminal_event_last rejects_all kind_name every_token
                  (Pipeline.attended left_early))).
  reflexivity.
Defined.

End ConcreteRuns.
